(** * The ERC-8004 agent registry client

    A shallow embedding of [lib/registry.ts] (the read and write paths over
    the chain client) and of [hooks/useAgentRegistry.ts] (the facade with its
    transaction-state tracker), followed by the properties of the
    specification that concern them.

    Asynchronous functions are embedded as computations in a state monad
    with exceptions that also emits the list of effects performed, in
    program order.  The chain client is an arbitrary deterministic oracle
    over an abstract world [W]; one action runs to completion (suspension
    points are not interleaved with other asynchronous work). *)

From Stdlib Require Import List String Ascii ZArith Bool Lia.
From Stdlib Require Import DecimalString.
From Stdlib Require QArith.
Import ListNotations.
Open Scope string_scope.
Open Scope list_scope.
Set Warnings "-register-all".

(** ** Run-time values

    TypeScript casts ([as Hash], [as ContractAgentData], ...) are erased at
    run time, so whatever the contract-call layer returns is a dynamic
    value.  These are the values the ABI decoder produces for the registry:
    booleans, big integers, hex strings, tuples and structs. *)
Module Js.

Inductive value : Type :=
| JUndefined
| JNull
| JBool (b : bool)
| JBigInt (n : Z)
| JString (s : string)
| JArray (items : list value)
| JObject (props : list (string * value)).

(** Conversion to boolean, as done by [!v], [v && ...] and [if (v)]. *)
Definition truthy (v : value) : bool :=
  match v with
  | JUndefined | JNull => false
  | JBool b => b
  | JBigInt n => negb (n =? 0)%Z
  | JString s => negb (s =? "")
  | JArray _ | JObject _ => true
  end.

(** [typeof v === 'object'] *)
Definition typeof_object (v : value) : bool :=
  match v with
  | JNull | JArray _ | JObject _ => true
  | _ => false
  end.

(** [Array.isArray(v)] *)
Definition isArray (v : value) : bool :=
  match v with
  | JArray _ => true
  | _ => false
  end.

(** The properties of an object, in order; a decoded struct has each key
    once. *)
Fixpoint lookup (k : string) (props : list (string * value)) : option value :=
  match props with
  | [] => None
  | (k', v) :: rest => if k =? k' then Some v else lookup k rest
  end.

Definition index_key (i : nat) : string :=
  NilEmpty.string_of_uint (Nat.to_uint i).

(** [k in v] on own properties: the keys of an object; the indices and
    ["length"] of an array.  (The two keys the registry client probes,
    ["owner"] and ["stake"], are not inherited from any prototype.) *)
Definition has (k : string) (v : value) : bool :=
  match v with
  | JObject props => match lookup k props with Some _ => true | None => false end
  | JArray items =>
      (k =? "length") || existsb (fun i => k =? index_key i) (seq 0 (List.length items))
  | _ => false
  end.

(** [v.k] for a named field; a missing property reads as [undefined]. *)
Definition get (k : string) (v : value) : value :=
  match v with
  | JObject props =>
      match lookup k props with
      | Some x => x
      | None => JUndefined
      end
  | _ => JUndefined
  end.

(** [v[i]]; an index past the end reads as [undefined]. *)
Definition at_index (i : nat) (v : value) : value :=
  match v with
  | JArray items => nth i items JUndefined
  | _ => JUndefined
  end.

(** A byte that continues a UTF-8 sequence. *)
Definition isContinuation (c : ascii) : bool :=
  let n := nat_of_ascii c in
  (128 <=? n)%nat && (n <=? 191)%nat.

(** The code points of a string, which the model holds as UTF-8 bytes:
    each byte that starts a sequence, with the continuation bytes that
    follow it. *)
Fixpoint code_points (s : string) : list string :=
  match s with
  | EmptyString => []
  | String c rest =>
      let points := code_points rest in
      match rest, points with
      | String d _, next :: others =>
          if isContinuation d then String c next :: others
          else String c EmptyString :: points
      | _, _ => String c EmptyString :: points
      end
  end.

Definition char_strings (s : string) : list value :=
  map JString (code_points s).

(** The iteration behind the spread [[...v]]: arrays and strings are
    iterable (a string by code points), anything else raises a [TypeError]
    ([None] here). *)
Definition iterate (v : value) : option (list value) :=
  match v with
  | JArray items => Some items
  | JString s => Some (char_strings s)
  | _ => None
  end.

Definition lower_ascii (c : ascii) : ascii :=
  let n := nat_of_ascii c in
  if (65 <=? n)%nat && (n <=? 90)%nat then ascii_of_nat (n + 32) else c.

(** [s.toLowerCase()] on the ASCII range. *)
Fixpoint toLowerCase (s : string) : string :=
  match s with
  | EmptyString => EmptyString
  | String c rest => String (lower_ascii c) (toLowerCase rest)
  end.

End Js.
Import Js.

(** ** Thrown values and results *)

Inductive Error : Type := mkError (message : string).

(** JavaScript can throw any value; [err instanceof Error] tells the two
    cases apart. *)
Inductive Thrown : Type :=
| ThrownError (e : Error)
| ThrownValue (v : value).

Inductive Result (A : Type) : Type :=
| Ok (a : A)
| Throw (t : Thrown).
Arguments Ok {A} a.
Arguments Throw {A} t.

(** ** types.ts and constants.ts *)

Definition Address := string.
Definition Hash := string.

Inductive SupportedNetwork : Type := arbitrum | arbitrum_sepolia.

Definition NULL_ADDRESS : Address := "0x0000000000000000000000000000000000000000".

Definition REGISTRY_CONTRACTS (network : SupportedNetwork) : Address :=
  match network with
  | arbitrum => "0x0000000000000000000000000000000000000000"
  | arbitrum_sepolia => "0x517De4c9Afa737A46Dcba61e1548AB3807963094"
  end.

Record AgentMetadata : Type := {
  md_name : string;
  md_version : string;
  md_capabilities : list string
}.

(** [RegistryAgentInfo]; the declared field types are not checked at run
    time, so every field holds the value that was read. *)
Record RegistryAgentInfo : Type := {
  info_agentId : value;
  info_owner : value;
  info_name : value;
  info_version : value;
  info_capabilities : value;
  info_stake : value;
  info_reputation : value;
  info_isActive : value;
  info_registeredAt : value
}.

Record RegistrationStatus : Type := {
  isRegistered : bool;
  agentInfo : option RegistryAgentInfo
}.

Definition notRegistered : RegistrationStatus :=
  {| isRegistered := false; agentInfo := None |}.

Inductive TransactionState : Type :=
| TxIdle
| TxPending (hash : option Hash)
| TxSuccess (hash : Hash)
| TxError (error : Error).

Record TransactionResult : Type := {
  tr_hash : Hash;
  tr_agentId : option Hash
}.

(** ** The chain client, as seen by the registry client *)

Record ReadRequest : Type := {
  rd_address : Address;
  rd_functionName : string;
  rd_args : list value
}.

Record WriteRequest : Type := {
  wr_address : Address;
  wr_functionName : string;
  wr_args : list value;
  wr_value : option Z;
  wr_account : Address
}.

Record Log : Type := {
  topics : list Hash;
  data : string
}.

Record Receipt : Type := { logs : list Log }.

Inductive Event : Type :=
| EvReadContract (req : ReadRequest) (res : Result value)
| EvWriteContract (req : WriteRequest) (res : Result Hash)
| EvWaitForReceipt (h : Hash) (res : Result Receipt)
| EvConsoleLog (msg : string)
| EvConsoleError (msg : string)
| EvSetStatus (s : option RegistrationStatus)
| EvSetIsLoading (b : bool)
| EvSetError (e : option Error)
| EvSetTxState (s : TransactionState).

(** ** The monad of asynchronous computations *)

Definition M (S A : Type) : Type := S -> Result A * S * list Event.

Definition ret {S A} (a : A) : M S A := fun s => (Ok a, s, []).

Definition throw {S A} (t : Thrown) : M S A := fun s => (Throw t, s, []).

Definition bind {S A B} (m : M S A) (k : A -> M S B) : M S B :=
  fun s =>
    match m s with
    | (Ok a, s1, evs1) =>
        match k a s1 with
        | (r, s2, evs2) => (r, s2, evs1 ++ evs2)
        end
    | (Throw t, s1, evs1) => (Throw t, s1, evs1)
    end.

(** [try { m } catch (err) { handler err }] *)
Definition try_catch {S A} (m : M S A) (handler : Thrown -> M S A) : M S A :=
  fun s =>
    match m s with
    | (Ok a, s1, evs1) => (Ok a, s1, evs1)
    | (Throw t, s1, evs1) =>
        match handler t s1 with
        | (r, s2, evs2) => (r, s2, evs1 ++ evs2)
        end
    end.

(** [try { m } finally { fin }] where [fin] completes normally. *)
Definition try_finally {S A} (m : M S A) (fin : M S unit) : M S A :=
  fun s =>
    match m s with
    | (r, s1, evs1) =>
        match fin s1 with
        | (Ok _, s2, evs2) => (r, s2, evs1 ++ evs2)
        | (Throw t, s2, evs2) => (Throw t, s2, evs1 ++ evs2)
        end
    end.

Definition emit {S} (e : Event) : M S unit := fun s => (Ok tt, s, [e]).

Declare Scope async_scope.
Delimit Scope async_scope with async.
Notation "x <- m ;; k" := (bind m (fun x => k))
  (at level 61, m at next level, right associativity) : async_scope.
Notation "m ;; k" := (bind m (fun _ => k))
  (at level 61, right associativity) : async_scope.
Open Scope async_scope.

Definition result_of {A S} (x : Result A * S * list Event) : Result A := fst (fst x).
Definition events_of {A S} (x : Result A * S * list Event) : list Event := snd x.
Definition state_of {A S} (x : Result A * S * list Event) : S := snd (fst x).

(** ** lib/registry.ts *)

Section Registry.

Variable W : Type.

(** [PublicClient]: contract reads and the wait for a receipt, either of
    which may fail with a transport fault and may change the world. *)
Record PublicClient : Type := {
  pc_readContract : ReadRequest -> W -> Result value * W;
  pc_waitForTransactionReceipt : Hash -> W -> Result Receipt * W
}.

(** [WalletClient]: the signer, if any, and the submission of a call. *)
Record WalletClient : Type := {
  wc_account : option Address;
  wc_writeContract : WriteRequest -> W -> Result Hash * W
}.

Definition readContract (publicClient : PublicClient) (req : ReadRequest) : M W value :=
  fun w =>
    let (res, w') := pc_readContract publicClient req w in
    (res, w', [EvReadContract req res]).

Definition waitForTransactionReceipt (publicClient : PublicClient) (h : Hash) : M W Receipt :=
  fun w =>
    let (res, w') := pc_waitForTransactionReceipt publicClient h w in
    (res, w', [EvWaitForReceipt h res]).

Definition writeContract (walletClient : WalletClient) (req : WriteRequest) : M W Hash :=
  fun w =>
    let (res, w') := wc_writeContract walletClient req w in
    (res, w', [EvWriteContract req res]).

(** [registryAddress ?? REGISTRY_CONTRACTS[network]] *)
Definition resolveRegistry (registryAddress : option Address) (network : SupportedNetwork) : Address :=
  match registryAddress with
  | Some a => a
  | None => REGISTRY_CONTRACTS network
  end.

(** The outcome of the shape analysis of lines 61-91 of [checkRegistration]:
    an agent record, or the [else] branch that reports an unexpected
    format. *)
Inductive Normalized : Type :=
| Parsed (agentInfo : RegistryAgentInfo)
| Unexpected.

(** [agentData && typeof agentData === 'object' && 'owner' in agentData] *)
Definition isStruct (agentData : value) : bool :=
  truthy agentData && typeof_object agentData && has "owner" agentData.

(** Lines 61-91 of [checkRegistration].  The struct branch copies the
    capabilities with a spread, which throws on a value that cannot be
    iterated; the tuple branch reads the eight positions as they are. *)
Definition normalizeAgentData (agentId agentData : value) : Result Normalized :=
  if isStruct agentData then
    match iterate (get "capabilities" agentData) with
    | Some caps =>
        Ok (Parsed {| info_agentId := agentId;
                      info_owner := get "owner" agentData;
                      info_name := get "name" agentData;
                      info_version := get "version" agentData;
                      info_capabilities := JArray caps;
                      info_stake := get "stake" agentData;
                      info_reputation := get "reputation" agentData;
                      info_isActive := get "isActive" agentData;
                      info_registeredAt := get "registeredAt" agentData |})
    | None => Throw (ThrownError (mkError "data.capabilities is not iterable"))
    end
  else if isArray agentData then
    Ok (Parsed {| info_agentId := agentId;
                  info_owner := at_index 0 agentData;
                  info_name := at_index 1 agentData;
                  info_version := at_index 2 agentData;
                  info_capabilities := at_index 3 agentData;
                  info_stake := at_index 4 agentData;
                  info_reputation := at_index 5 agentData;
                  info_isActive := at_index 6 agentData;
                  info_registeredAt := at_index 7 agentData |})
  else Ok Unexpected.

Definition lift_result {S A} (r : Result A) : M S A := fun s => (r, s, []).

Definition isAgentRegistered_call (registry ownerAddress : Address) : ReadRequest :=
  {| rd_address := registry; rd_functionName := "isAgentRegistered";
     rd_args := [JString ownerAddress] |}.

Definition getAgentByOwner_call (registry ownerAddress : Address) : ReadRequest :=
  {| rd_address := registry; rd_functionName := "getAgentByOwner";
     rd_args := [JString ownerAddress] |}.

Definition getAgent_call (registry : Address) (agentId : value) : ReadRequest :=
  {| rd_address := registry; rd_functionName := "getAgent"; rd_args := [agentId] |}.

Definition checkRegistration (publicClient : PublicClient) (network : SupportedNetwork)
    (ownerAddress : Address) (registryAddress : option Address) : M W RegistrationStatus :=
  let registry := resolveRegistry registryAddress network in
  if registry =? "0x0000000000000000000000000000000000000000" then
    ret notRegistered
  else
    try_catch
      (isReg <- readContract publicClient (isAgentRegistered_call registry ownerAddress) ;;
       if negb (truthy isReg) then ret notRegistered
       else
         agentId <- readContract publicClient (getAgentByOwner_call registry ownerAddress) ;;
         agentData <- readContract publicClient (getAgent_call registry agentId) ;;
         emit (EvConsoleLog "Raw agent data from contract:") ;;
         normalized <- lift_result (normalizeAgentData agentId agentData) ;;
         match normalized with
         | Parsed info =>
             emit (EvConsoleLog "Parsed agent info:") ;;
             ret {| isRegistered := true; agentInfo := Some info |}
         | Unexpected =>
             emit (EvConsoleError "Unexpected agent data format:") ;;
             ret notRegistered
         end)
      (fun error =>
         emit (EvConsoleError "Error checking registration:") ;;
         ret notRegistered).

(** ['0x' + 'AgentRegistered'.toLowerCase()] *)
Definition expectedTopic : string := ("0x" ++ toLowerCase "AgentRegistered")%string.

(** The predicate given to [receipt.logs.find]: with an empty topic list
    [log.topics[0]?.toLowerCase()] is [undefined], which equals no string. *)
Definition isRegisteredEvent (log : Log) : bool :=
  match nth_error (topics log) 0 with
  | Some t => toLowerCase t =? expectedTopic
  | None => false
  end.

(** [registeredEvent?.topics[1]] *)
Definition eventAgentId (registeredEvent : option Log) : option Hash :=
  match registeredEvent with
  | Some log => nth_error (topics log) 1
  | None => None
  end.

Definition registerAgent_call (registry : Address) (metadata : AgentMetadata)
    (stakeAmount : option Z) (account : Address) : WriteRequest :=
  {| wr_address := registry; wr_functionName := "registerAgent";
     wr_args := [JString (md_name metadata); JString (md_version metadata);
                 JArray (map JString (md_capabilities metadata))];
     wr_value := Some (match stakeAmount with Some v => v | None => 0%Z end);
     wr_account := account |}.

Definition registerAgent (publicClient : PublicClient) (walletClient : WalletClient)
    (network : SupportedNetwork) (metadata : AgentMetadata) (stakeAmount : option Z)
    (registryAddress : option Address) : M W TransactionResult :=
  let registry := resolveRegistry registryAddress network in
  match wc_account walletClient with
  | None => throw (ThrownError (mkError "Wallet not connected"))
  | Some account =>
      if registry =? "0x0000000000000000000000000000000000000000" then
        throw (ThrownError (mkError "Registry contract not deployed on this network"))
      else
        hash <- writeContract walletClient (registerAgent_call registry metadata stakeAmount account) ;;
        receipt <- waitForTransactionReceipt publicClient hash ;;
        let registeredEvent := find isRegisteredEvent (logs receipt) in
        let agentId := eventAgentId registeredEvent in
        ret {| tr_hash := hash; tr_agentId := agentId |}
  end.

Definition updateAgentCapabilities (publicClient : PublicClient) (walletClient : WalletClient)
    (network : SupportedNetwork) (agentId : value) (capabilities : list string)
    (registryAddress : option Address) : M W TransactionResult :=
  let registry := resolveRegistry registryAddress network in
  match wc_account walletClient with
  | None => throw (ThrownError (mkError "Wallet not connected"))
  | Some account =>
      hash <- writeContract walletClient
                {| wr_address := registry; wr_functionName := "updateCapabilities";
                   wr_args := [agentId; JArray (map JString capabilities)];
                   wr_value := None; wr_account := account |} ;;
      waitForTransactionReceipt publicClient hash ;;
      ret {| tr_hash := hash; tr_agentId := None |}
  end.

Definition addAgentStake (publicClient : PublicClient) (walletClient : WalletClient)
    (network : SupportedNetwork) (agentId : value) (amount : Z)
    (registryAddress : option Address) : M W TransactionResult :=
  let registry := resolveRegistry registryAddress network in
  match wc_account walletClient with
  | None => throw (ThrownError (mkError "Wallet not connected"))
  | Some account =>
      hash <- writeContract walletClient
                {| wr_address := registry; wr_functionName := "stake";
                   wr_args := [agentId];
                   wr_value := Some amount; wr_account := account |} ;;
      waitForTransactionReceipt publicClient hash ;;
      ret {| tr_hash := hash; tr_agentId := None |}
  end.

Definition withdrawAgentStake (publicClient : PublicClient) (walletClient : WalletClient)
    (network : SupportedNetwork) (agentId : value) (amount : Z)
    (registryAddress : option Address) : M W TransactionResult :=
  let registry := resolveRegistry registryAddress network in
  match wc_account walletClient with
  | None => throw (ThrownError (mkError "Wallet not connected"))
  | Some account =>
      hash <- writeContract walletClient
                {| wr_address := registry; wr_functionName := "withdraw";
                   wr_args := [agentId; JBigInt amount];
                   wr_value := None; wr_account := account |} ;;
      waitForTransactionReceipt publicClient hash ;;
      ret {| tr_hash := hash; tr_agentId := None |}
  end.

Definition deactivateAgent (publicClient : PublicClient) (walletClient : WalletClient)
    (network : SupportedNetwork) (agentId : value)
    (registryAddress : option Address) : M W TransactionResult :=
  let registry := resolveRegistry registryAddress network in
  match wc_account walletClient with
  | None => throw (ThrownError (mkError "Wallet not connected"))
  | Some account =>
      hash <- writeContract walletClient
                {| wr_address := registry; wr_functionName := "deactivateAgent";
                   wr_args := [agentId];
                   wr_value := None; wr_account := account |} ;;
      waitForTransactionReceipt publicClient hash ;;
      ret {| tr_hash := hash; tr_agentId := None |}
  end.

Definition reactivateAgent (publicClient : PublicClient) (walletClient : WalletClient)
    (network : SupportedNetwork) (agentId : value)
    (registryAddress : option Address) : M W TransactionResult :=
  let registry := resolveRegistry registryAddress network in
  match wc_account walletClient with
  | None => throw (ThrownError (mkError "Wallet not connected"))
  | Some account =>
      hash <- writeContract walletClient
                {| wr_address := registry; wr_functionName := "reactivateAgent";
                   wr_args := [agentId];
                   wr_value := None; wr_account := account |} ;;
      waitForTransactionReceipt publicClient hash ;;
      ret {| tr_hash := hash; tr_agentId := None |}
  end.

(** [agentData && typeof agentData === 'object' && 'stake' in agentData] *)
Definition hasStake (agentData : value) : bool :=
  truthy agentData && typeof_object agentData && has "stake" agentData.

(** Lines 332-338 of [getAgentStake]. *)
Definition extractStake (agentData : value) : value :=
  if hasStake agentData then get "stake" agentData
  else if isArray agentData then at_index 4 agentData
  else JBigInt 0.

Definition getAgentStake (publicClient : PublicClient) (network : SupportedNetwork)
    (agentId : value) (registryAddress : option Address) : M W value :=
  let registry := resolveRegistry registryAddress network in
  agentData <- readContract publicClient (getAgent_call registry agentId) ;;
  ret (extractStake agentData).

End Registry.

Arguments pc_readContract {W} _ _ _.
Arguments pc_waitForTransactionReceipt {W} _ _ _.
Arguments wc_account {W} _.
Arguments wc_writeContract {W} _ _ _.
Arguments readContract {W} _ _ _.
Arguments waitForTransactionReceipt {W} _ _ _.
Arguments writeContract {W} _ _ _.
Arguments checkRegistration {W} _ _ _ _ _.
Arguments registerAgent {W} _ _ _ _ _ _ _.
Arguments updateAgentCapabilities {W} _ _ _ _ _ _ _.
Arguments addAgentStake {W} _ _ _ _ _ _ _.
Arguments withdrawAgentStake {W} _ _ _ _ _ _ _.
Arguments deactivateAgent {W} _ _ _ _ _ _.
Arguments reactivateAgent {W} _ _ _ _ _ _.
Arguments getAgentStake {W} _ _ _ _ _.

(** ** hooks/useAgentRegistry.ts *)

Section Hook.

Variable W : Type.

(** The four [useState] cells of the hook. *)
Record HookState : Type := {
  status : option RegistrationStatus;
  isLoading : bool;
  error : option Error;
  txState : TransactionState
}.

Definition initialState : HookState :=
  {| status := None; isLoading := false; error := None; txState := TxIdle |}.

Record Store : Type := {
  chain : W;
  hook : HookState
}.

Record UseAgentRegistryOptions : Type := {
  publicClient : option (PublicClient W);
  walletClient : option (WalletClient W);
  network : SupportedNetwork;
  userAddress : option Address;
  registryAddress : option Address
}.

Definition update (f : HookState -> HookState) (e : Event) : M Store unit :=
  fun s => (Ok tt, {| chain := chain s; hook := f (hook s) |}, [e]).

Definition setStatus (v : option RegistrationStatus) : M Store unit :=
  update (fun h => {| status := v; isLoading := isLoading h;
                      error := error h; txState := txState h |}) (EvSetStatus v).

Definition setIsLoading (v : bool) : M Store unit :=
  update (fun h => {| status := status h; isLoading := v;
                      error := error h; txState := txState h |}) (EvSetIsLoading v).

Definition setError (v : option Error) : M Store unit :=
  update (fun h => {| status := status h; isLoading := isLoading h;
                      error := v; txState := txState h |}) (EvSetError v).

Definition setTxState (v : TransactionState) : M Store unit :=
  update (fun h => {| status := status h; isLoading := isLoading h;
                      error := error h; txState := v |}) (EvSetTxState v).

(** A function of [registry.ts] run from the hook: it acts on the chain
    only. *)
Definition lift {A} (m : M W A) : M Store A :=
  fun s =>
    match m (chain s) with
    | (r, w', evs) => (r, {| chain := w'; hook := hook s |}, evs)
    end.

(** [err instanceof Error ? err : new Error(fallback)] *)
Definition asError (err : Thrown) (fallback : string) : Error :=
  match err with
  | ThrownError e => e
  | ThrownValue _ => mkError fallback
  end.

(** [!userAddress] holds for [undefined] and for the empty string. *)
Definition present (a : option Address) : option Address :=
  match a with
  | Some s => if s =? "" then None else Some s
  | None => None
  end.

Definition fetchStatus (options : UseAgentRegistryOptions) : M Store unit :=
  match publicClient options, present (userAddress options) with
  | Some pc, Some owner =>
      setIsLoading true ;;
      setError None ;;
      try_finally
        (try_catch
           (result <- lift (checkRegistration pc (network options) owner
                              (registryAddress options)) ;;
            setStatus (Some result))
           (fun err =>
              setError (Some (asError err "Failed to check registration")) ;;
              setStatus None))
        (setIsLoading false)
  | _, _ => setStatus None
  end.

(** The body shared by the six actions once their guard has passed
    (lines 98-119 for [register], and likewise for the others). *)
Definition trackTransaction (options : UseAgentRegistryOptions) (fallback : string)
    (call : M W TransactionResult) : M Store TransactionResult :=
  setTxState (TxPending None) ;;
  setError None ;;
  try_catch
    (result <- lift call ;;
     setTxState (TxSuccess (tr_hash result)) ;;
     fetchStatus options ;;
     ret result)
    (fun err =>
       let error := asError err fallback in
       setTxState (TxError error) ;;
       setError (Some error) ;;
       throw (ThrownError error)).

(** [status?.agentInfo?.agentId] *)
Definition knownAgentId (st : option RegistrationStatus) : value :=
  match st with
  | Some s =>
      match agentInfo s with
      | Some info => info_agentId info
      | None => JUndefined
      end
  | None => JUndefined
  end.

Definition withStatus {A} (k : option RegistrationStatus -> M Store A) : M Store A :=
  fun s => k (status (hook s)) s.

Definition register (options : UseAgentRegistryOptions) (metadata : AgentMetadata)
    (stakeAmount : option Z) : M Store TransactionResult :=
  match publicClient options, walletClient options with
  | Some pc, Some wc =>
      trackTransaction options "Registration failed"
        (registerAgent pc wc (network options) metadata stakeAmount
           (registryAddress options))
  | _, _ => throw (ThrownError (mkError "Wallet not connected"))
  end.

Definition updateCapabilities (options : UseAgentRegistryOptions)
    (capabilities : list string) : M Store TransactionResult :=
  withStatus (fun status =>
    match publicClient options, walletClient options, truthy (knownAgentId status) with
    | Some pc, Some wc, true =>
        trackTransaction options "Update failed"
          (updateAgentCapabilities pc wc (network options) (knownAgentId status)
             capabilities (registryAddress options))
    | _, _, _ =>
        throw (ThrownError (mkError "Agent not registered or wallet not connected"))
    end).

Definition addStake (options : UseAgentRegistryOptions) (amount : Z)
    : M Store TransactionResult :=
  withStatus (fun status =>
    match publicClient options, walletClient options, truthy (knownAgentId status) with
    | Some pc, Some wc, true =>
        trackTransaction options "Staking failed"
          (addAgentStake pc wc (network options) (knownAgentId status)
             amount (registryAddress options))
    | _, _, _ =>
        throw (ThrownError (mkError "Agent not registered or wallet not connected"))
    end).

Definition withdrawStake (options : UseAgentRegistryOptions) (amount : Z)
    : M Store TransactionResult :=
  withStatus (fun status =>
    match publicClient options, walletClient options, truthy (knownAgentId status) with
    | Some pc, Some wc, true =>
        trackTransaction options "Withdrawal failed"
          (withdrawAgentStake pc wc (network options) (knownAgentId status)
             amount (registryAddress options))
    | _, _, _ =>
        throw (ThrownError (mkError "Agent not registered or wallet not connected"))
    end).

Definition deactivate (options : UseAgentRegistryOptions) : M Store TransactionResult :=
  withStatus (fun status =>
    match publicClient options, walletClient options, truthy (knownAgentId status) with
    | Some pc, Some wc, true =>
        trackTransaction options "Deactivation failed"
          (deactivateAgent pc wc (network options) (knownAgentId status)
             (registryAddress options))
    | _, _, _ =>
        throw (ThrownError (mkError "Agent not registered or wallet not connected"))
    end).

Definition reactivate (options : UseAgentRegistryOptions) : M Store TransactionResult :=
  withStatus (fun status =>
    match publicClient options, walletClient options, truthy (knownAgentId status) with
    | Some pc, Some wc, true =>
        trackTransaction options "Reactivation failed"
          (reactivateAgent pc wc (network options) (knownAgentId status)
             (registryAddress options))
    | _, _, _ =>
        throw (ThrownError (mkError "Agent not registered or wallet not connected"))
    end).

(** The write actions the facade exposes, with their arguments. *)
Inductive WriteAction : Type :=
| Register (metadata : AgentMetadata) (stakeAmount : option Z)
| UpdateCapabilities (capabilities : list string)
| AddStake (amount : Z)
| WithdrawStake (amount : Z)
| Deactivate
| Reactivate.

Definition invoke (options : UseAgentRegistryOptions) (a : WriteAction)
    : M Store TransactionResult :=
  match a with
  | Register metadata stakeAmount => register options metadata stakeAmount
  | UpdateCapabilities capabilities => updateCapabilities options capabilities
  | AddStake amount => addStake options amount
  | WithdrawStake amount => withdrawStake options amount
  | Deactivate => deactivate options
  | Reactivate => reactivate options
  end.

(** The guard each action evaluates before it touches the tracker. *)
Definition guardPasses (options : UseAgentRegistryOptions) (a : WriteAction)
    (h : HookState) : bool :=
  match publicClient options, walletClient options with
  | Some _, Some _ =>
      match a with
      | Register _ _ => true
      | _ => truthy (knownAgentId (status h))
      end
  | _, _ => false
  end.

(** The successive values written to the transaction-state cell. *)
Fixpoint txWrites (evs : list Event) : list TransactionState :=
  match evs with
  | [] => []
  | EvSetTxState s :: rest => s :: txWrites rest
  | _ :: rest => txWrites rest
  end.

(** An event that talks to the chain. *)
Definition isChainEvent (e : Event) : bool :=
  match e with
  | EvReadContract _ _ | EvWriteContract _ _ | EvWaitForReceipt _ _ => true
  | _ => false
  end.

(** An event of a status refresh: every run of [fetchStatus] replaces the
    cached status, and nothing else does. *)
Definition isRefreshEvent (e : Event) : bool :=
  match e with
  | EvSetStatus _ => true
  | _ => false
  end.

End Hook.

Arguments Store W : clear implicits.
Arguments chain {W} _.
Arguments hook {W} _.
Arguments UseAgentRegistryOptions W : clear implicits.
Arguments publicClient {W} _.
Arguments walletClient {W} _.
Arguments network {W} _.
Arguments userAddress {W} _.
Arguments registryAddress {W} _.
Arguments fetchStatus {W} _ _.
Arguments trackTransaction {W} _ _ _ _.
Arguments register {W} _ _ _ _.
Arguments updateCapabilities {W} _ _ _.
Arguments addStake {W} _ _ _.
Arguments withdrawStake {W} _ _ _.
Arguments deactivate {W} _ _.
Arguments reactivate {W} _ _.
Arguments invoke {W} _ _ _.
Arguments guardPasses {W} _ _ _.
Arguments lift {W A} _ _.

(** * The collaborators of the registry client *)

(** ** Tasks with events of any kind

    The same monad as [M], for code whose effects are not those of the
    registry client. *)

Section Tasks.

Context {E S : Type}.

Definition Task (A : Type) : Type := S -> Result A * S * list E.

Definition task_ret {A} (a : A) : Task A := fun s => (Ok a, s, []).

Definition task_throw {A} (t : Thrown) : Task A := fun s => (Throw t, s, []).

Definition task_bind {A B} (m : Task A) (k : A -> Task B) : Task B :=
  fun s =>
    match m s with
    | (Ok a, s1, evs1) =>
        match k a s1 with
        | (r, s2, evs2) => (r, s2, evs1 ++ evs2)
        end
    | (Throw t, s1, evs1) => (Throw t, s1, evs1)
    end.

(** [try { m } catch (err) { handler err }] *)
Definition task_try {A} (m : Task A) (handler : Thrown -> Task A) : Task A :=
  fun s =>
    match m s with
    | (Ok a, s1, evs1) => (Ok a, s1, evs1)
    | (Throw t, s1, evs1) =>
        match handler t s1 with
        | (r, s2, evs2) => (r, s2, evs1 ++ evs2)
        end
    end.

(** [try { m } finally { fin }] where [fin] completes normally. *)
Definition task_finally {A} (m : Task A) (fin : Task unit) : Task A :=
  fun s =>
    match m s with
    | (r, s1, evs1) =>
        match fin s1 with
        | (Ok _, s2, evs2) => (r, s2, evs1 ++ evs2)
        | (Throw t, s2, evs2) => (Throw t, s2, evs1 ++ evs2)
        end
    end.

Definition task_emit (e : E) : Task unit := fun s => (Ok tt, s, [e]).

(** The three parts of a finished run. *)
Definition outcome {A} (x : Result A * S * list E) : Result A := fst (fst x).
Definition final {A} (x : Result A * S * list E) : S := snd (fst x).
Definition effects {A} (x : Result A * S * list E) : list E := snd x.

End Tasks.

Arguments Task E S A : clear implicits.

Declare Scope task_scope.
Delimit Scope task_scope with task.
Notation "x <- m ;; k" := (task_bind m (fun x => k))
  (at level 61, m at next level, right associativity) : task_scope.
Notation "m ;; k" := (task_bind m (fun _ => k))
  (at level 61, right associativity) : task_scope.

(** ** lib/link-service.ts *)

Module LinkService.

Record LinkResult : Type := { success : bool }.

(** [`Link Telegram profile ${telegramId} with nonce ${nonce}`] *)
Definition message (telegramId nonce : string) : string :=
  ("Link Telegram profile " ++ telegramId ++ " with nonce " ++ nonce)%string.

(** [verifyMessage] of viem is a collaborator: it answers whether the
    signature over the message is the address's, or throws (on a malformed
    signature, say). *)
Definition Verifier : Type := Address -> string -> string -> Result bool.

Definition linkWalletToTelegram (verifyMessage : Verifier)
    (telegramId : string) (address : Address) (signature : string) (nonce : string)
    : Result LinkResult :=
  let message := message telegramId nonce in
  match verifyMessage address message signature with
  | Ok isValid =>
      if negb isValid then Throw (ThrownError (mkError "Invalid signature"))
      else Ok {| success := true |}
  | Throw t => Throw t
  end.

End LinkService.

(** ** hooks/useTelegramLink.ts *)

Module TelegramLink.

Section Link.

Variable W : Type.

(** The body posted to the server, before [JSON.stringify]. *)
Record LinkBody : Type := {
  telegramId : string;
  address : Address;
  signature : string;
  nonce : string
}.

Record FetchRequest : Type := {
  url : string;
  method : string;
  body : LinkBody
}.

(** What the hook gets from its surroundings: the connected address, if
    any; the nonce drawn by [Math.random().toString(36).substring(7)]; the
    wallet's signing of a message; and [fetch], of whose response only
    [ok] is read. *)
Record Env : Type := {
  env_address : option Address;
  env_nonce : W -> string * W;
  env_signMessageAsync : string -> W -> Result string * W;
  env_fetch : FetchRequest -> W -> Result bool * W
}.

(** The two [useState] cells. *)
Record Cells : Type := {
  isLoading : bool;
  isLinked : bool
}.

Record Store : Type := {
  world : W;
  cells : Cells
}.

Inductive Event : Type :=
| EvAlert (msg : string)
| EvSetIsLoading (b : bool)
| EvSetIsLinked (b : bool)
| EvSign (msg : string) (res : Result string)
| EvFetch (req : FetchRequest) (res : Result bool)
| EvConsoleError (msg : string).

Local Open Scope task_scope.

Definition setIsLoading (b : bool) : Task Event Store unit :=
  fun s => (Ok tt, {| world := world s;
                      cells := {| isLoading := b; isLinked := isLinked (cells s) |} |},
            [EvSetIsLoading b]).

Definition setIsLinked (b : bool) : Task Event Store unit :=
  fun s => (Ok tt, {| world := world s;
                      cells := {| isLoading := isLoading (cells s); isLinked := b |} |},
            [EvSetIsLinked b]).

Definition drawNonce (env : Env) : Task Event Store string :=
  fun s =>
    let (n, w') := env_nonce env (world s) in
    (Ok n, {| world := w'; cells := cells s |}, []).

Definition signMessageAsync (env : Env) (msg : string) : Task Event Store string :=
  fun s =>
    let (res, w') := env_signMessageAsync env msg (world s) in
    (res, {| world := w'; cells := cells s |}, [EvSign msg res]).

Definition fetch (env : Env) (req : FetchRequest) : Task Event Store bool :=
  fun s =>
    let (res, w') := env_fetch env req (world s) in
    (res, {| world := w'; cells := cells s |}, [EvFetch req res]).

(** [!address] holds for [undefined] and for the empty string. *)
Definition connected (a : option Address) : option Address :=
  match a with
  | Some s => if s =? "" then None else Some s
  | None => None
  end.

Definition link (env : Env) : Task Event Store unit :=
  match connected (env_address env) with
  | None => task_emit (EvAlert "Please connect wallet first")
  | Some address =>
      setIsLoading true ;;
      task_finally
        (task_try
           (let telegramId := "USER_ID_FROM_CONTEXT" in
            nonce <- drawNonce env ;;
            let message :=
              ("Link Telegram profile " ++ telegramId ++ " with nonce " ++ nonce)%string in
            signature <- signMessageAsync env message ;;
            ok <- fetch env
                    {| url := "/api/telegram/link"; method := "POST";
                       body := {| telegramId := telegramId; address := address;
                                  signature := signature; nonce := nonce |} |} ;;
            if ok then setIsLinked true else task_ret tt)
           (fun error => task_emit (EvConsoleError "Linking failed:")))
        (setIsLoading false)
  end.

End Link.

Arguments link {W} _ _.
Arguments env_address {W} _.
Arguments env_nonce {W} _ _.
Arguments env_signMessageAsync {W} _ _ _.
Arguments env_fetch {W} _ _ _.
Arguments world {W} _.
Arguments cells {W} _.
Arguments Store W : clear implicits.
Arguments Env W : clear implicits.

End TelegramLink.

(** ** The Telegram AI composer and its service

    The two source files of the bot's AI integration: the service that
    asks the model ([AIAgentService]) and the handler of text messages
    ([aiComposer.on('message:text', ...)]). *)

Module AiAgent.

Record ChatMessage : Type := {
  role : string;
  content : string
}.

Record CompletionRequest : Type := {
  model : string;
  messages : list ChatMessage;
  temperature : QArith_base.Q
}.

(** A completion as the handler reads it: for each choice, the content of
    its message, which may be [null]. *)
Record Completion : Type := {
  choices : list (option string)
}.

Inductive Event : Type :=
| EvCreate (req : CompletionRequest) (res : Result Completion)
| EvChatAction (action : string) (res : Result unit)
| EvReply (text : string) (res : Result unit)
| EvConsoleError (msg : string).

Section Bot.

Variable W : Type.

Local Open Scope task_scope.

(** [openai.chat.completions.create] *)
Definition OpenAI : Type := CompletionRequest -> W -> Result Completion * W.

Definition create (openai : OpenAI) (req : CompletionRequest) : Task Event W Completion :=
  fun w =>
    let (res, w') := openai req w in
    (res, w', [EvCreate req res]).

(** [AIAgentService.generateResponse]; reading [choices[0].message] of a
    completion without choices throws a [TypeError]. *)
Definition generateResponse (openai : OpenAI) (userMessage : string)
    (history : list ChatMessage) : Task Event W (option string) :=
  response <- create openai
                {| model := "gpt-4-turbo";
                   messages :=
                     [{| role := "system"; content := "You are a helpful Web3 assistant." |}]
                     ++ history
                     ++ [{| role := "user"; content := userMessage |}];
                   temperature := QArith_base.Qmake 7 10 |} ;;
  match choices response with
  | first :: _ => task_ret first
  | [] =>
      task_throw
        (ThrownError (mkError "Cannot read properties of undefined (reading 'message')"))
  end.

(** The part of grammy's context the handler uses. *)
Record Context : Type := {
  ctx_text : string;
  ctx_replyWithChatAction : string -> W -> Result unit * W;
  ctx_reply : string -> W -> Result unit * W
}.

Definition replyWithChatAction (ctx : Context) (action : string) : Task Event W unit :=
  fun w =>
    let (res, w') := ctx_replyWithChatAction ctx action w in
    (res, w', [EvChatAction action res]).

Definition reply (ctx : Context) (text : string) : Task Event W unit :=
  fun w =>
    let (res, w') := ctx_reply ctx text w in
    (res, w', [EvReply text res]).

(** [response || fallback]: [null] and the empty string give way. *)
Definition orElse (response : option string) (fallback : string) : string :=
  match response with
  | Some r => if r =? "" then fallback else r
  | None => fallback
  end.

(** The handler registered with [aiComposer.on('message:text', ...)]; the
    service is called with its default, empty history. *)
Definition onText (openai : OpenAI) (ctx : Context) : Task Event W unit :=
  if String.prefix "/" (ctx_text ctx) then task_ret tt
  else
    replyWithChatAction ctx "typing" ;;
    task_try
      (response <- generateResponse openai (ctx_text ctx) [] ;;
       reply ctx (orElse response "I'm not sure how to respond to that."))
      (fun error =>
         task_emit (EvConsoleError "AI generation error:") ;;
         reply ctx "Sorry, I encountered an error while processing your request.").

End Bot.

Arguments generateResponse {W} _ _ _ _.
Arguments create {W} _ _ _.
Arguments reply {W} _ _ _.
Arguments replyWithChatAction {W} _ _ _.
Arguments onText {W} _ _ _.
Arguments ctx_text {W} _.
Arguments ctx_reply {W} _ _ _.
Arguments ctx_replyWithChatAction {W} _ _ _.
Arguments Context W : clear implicits.
Arguments OpenAI W : clear implicits.

End AiAgent.

(** ** lib/openrouter-client.ts *)

Module OpenRouter.

Section Client.

(** [W] is the world [fetch] acts on.  JavaScript numbers are kept
    abstract: the client only passes them on, and prints the status of a
    response with [showNum]. *)
Variables (W Num : Type) (showNum : Num -> string).

(** A parsed JSON document. *)
Inductive json : Type :=
| JsonNull
| JsonBool (b : bool)
| JsonNum (x : Num)
| JsonStr (s : string)
| JsonArr (items : list json)
| JsonObj (props : list (string * json)).

Fixpoint lookup (k : string) (props : list (string * json)) : option json :=
  match props with
  | [] => None
  | (k', v) :: rest => if k =? k' then Some v else lookup k rest
  end.

(** A value read out of a document: [None] is [undefined]. *)
Definition dyn : Type := option json.

Definition typeError (what : string) : Thrown :=
  ThrownError (mkError ("Cannot read properties of " ++ what)%string).

(** [v.k] for a key that is neither ["length"] nor an index: it throws on
    [null] and [undefined], and only an object can have the property. *)
Definition field (k : string) (v : dyn) : Result dyn :=
  match v with
  | None => Throw (typeError "undefined")
  | Some JsonNull => Throw (typeError "null")
  | Some (JsonObj props) => Ok (lookup k props)
  | Some _ => Ok None
  end.

(** [v?.k] *)
Definition optField (k : string) (v : dyn) : dyn :=
  match v with
  | Some (JsonObj props) => lookup k props
  | _ => None
  end.

(** [v[0]] *)
Definition first (v : dyn) : Result dyn :=
  match v with
  | None => Throw (typeError "undefined")
  | Some JsonNull => Throw (typeError "null")
  | Some (JsonArr items) => Ok (nth_error items 0)
  | Some (JsonStr (String c _)) => Ok (Some (JsonStr (String c EmptyString)))
  | Some (JsonObj props) => Ok (lookup "0" props)
  | Some _ => Ok None
  end.

(** [v ?? fallback] *)
Definition orElse (v : dyn) (fallback : json) : json :=
  match v with
  | None | Some JsonNull => fallback
  | Some x => x
  end.

(** The conversion to string made by [new Error(v)]: an array prints its
    elements separated by commas, [null] elements as nothing. *)
Fixpoint toStr (v : json) : string :=
  match v with
  | JsonNull => "null"
  | JsonBool true => "true"
  | JsonBool false => "false"
  | JsonNum x => showNum x
  | JsonStr s => s
  | JsonArr items =>
      String.concat ","
        (map (fun x => match x with JsonNull => "" | _ => toStr x end) items)
  | JsonObj _ => "[object Object]"
  end.

Record OpenRouterConfig : Type := {
  apiKey : string;
  model : string;
  baseUrl : option string;
  siteUrl : option string;
  siteName : option string
}.

(** [Partial<OpenRouterConfig>] *)
Record Overrides : Type := {
  o_apiKey : option string;
  o_model : option string;
  o_baseUrl : option string;
  o_siteUrl : option string;
  o_siteName : option string
}.

(** The three variables read from [process.env]. *)
Record ProcessEnv : Type := {
  OPENROUTER_API_KEY : option string;
  OPENROUTER_MODEL : option string;
  OPENROUTER_BASE_URL : option string
}.

Inductive Role : Type := system | user | assistant.

Record ChatMessage : Type := {
  role : Role;
  content : string
}.

Record ChatOptions : Type := {
  maxTokens : option Num;
  temperature : option Num;
  topP : option Num;
  stop : option (list string)
}.

Definition noOptions : ChatOptions :=
  {| maxTokens := None; temperature := None; topP := None; stop := None |}.

Record Usage : Type := {
  promptTokens : dyn;
  completionTokens : dyn;
  totalTokens : dyn
}.

(** [ChatResponse]; the fields hold what the document had. *)
Record ChatResponse : Type := {
  r_content : json;
  r_model : dyn;
  r_usage : Usage;
  r_id : dyn
}.

(** The state of an [OpenRouterClient]. *)
Record OpenRouterClient : Type := {
  config_apiKey : string;
  config_model : string;
  config_baseUrl : string;
  this_siteUrl : option string;
  this_siteName : option string
}.

Definition constructor (config : OpenRouterConfig) : OpenRouterClient :=
  {| config_apiKey := apiKey config;
     config_model := model config;
     config_baseUrl :=
       match baseUrl config with
       | Some u => u
       | None => "https://openrouter.ai/api/v1"
       end;
     this_siteUrl := siteUrl config;
     this_siteName := siteName config |}.

Definition getModel (this : OpenRouterClient) : string := config_model this.

Definition setModel (this : OpenRouterClient) (model : string) : OpenRouterClient :=
  {| config_apiKey := config_apiKey this;
     config_model := model;
     config_baseUrl := config_baseUrl this;
     this_siteUrl := this_siteUrl this;
     this_siteName := this_siteName this |}.

(** The body of the request, before [JSON.stringify] (which leaves out the
    fields that are [undefined]). *)
Record Body : Type := {
  b_model : string;
  b_messages : list ChatMessage;
  b_max_tokens : option Num;
  b_temperature : option Num;
  b_top_p : option Num;
  b_stop : option (list string)
}.

Record Request : Type := {
  url : string;
  method : string;
  headers : list (string * string);
  body : Body
}.

(** The response of [fetch]: [ok], [status], and what [json()] gives,
    which throws on a body that is no JSON. *)
Record Response : Type := {
  ok : bool;
  status : Num;
  json_body : Result json
}.

Definition Fetch : Type := Request -> W -> Result Response * W.

Inductive Event : Type :=
| EvFetch (req : Request) (res : Result Response).

Local Open Scope task_scope.

Definition fetch (f : Fetch) (req : Request) : Task Event W Response :=
  fun w =>
    let (res, w') := f req w in
    (res, w', [EvFetch req res]).

Definition lift_result {A} (r : Result A) : Task Event W A := fun w => (r, w, []).

(** [...(v && { [name]: v })]: nothing for [undefined] and for the empty
    string. *)
Definition optionalHeader (name : string) (v : option string) : list (string * string) :=
  match v with
  | Some s => if s =? "" then [] else [(name, s)]
  | None => []
  end.

Definition chat (f : Fetch) (this : OpenRouterClient) (messages : list ChatMessage)
    (options : ChatOptions) : Task Event W ChatResponse :=
  response <- fetch f
    {| url := (config_baseUrl this ++ "/chat/completions")%string;
       method := "POST";
       headers :=
         [("Content-Type", "application/json");
          ("Authorization", ("Bearer " ++ config_apiKey this)%string)]
         ++ optionalHeader "HTTP-Referer" (this_siteUrl this)
         ++ optionalHeader "X-Title" (this_siteName this);
       body := {| b_model := config_model this;
                  b_messages := messages;
                  b_max_tokens := maxTokens options;
                  b_temperature := temperature options;
                  b_top_p := topP options;
                  b_stop := stop options |} |} ;;
  if negb (ok response) then
    error <- lift_result (json_body response) ;;
    inner <- lift_result (field "error" (Some error)) ;;
    task_throw
      (ThrownError
         (mkError
            (toStr
               (orElse (optField "message" inner)
                  (JsonStr ("OpenRouter API error: " ++ showNum (status response))%string)))))
  else
    data <- lift_result (json_body response) ;;
    choices <- lift_result (field "choices" (Some data)) ;;
    choice <- lift_result (first choices) ;;
    let content := orElse (optField "content" (optField "message" choice)) (JsonStr "") in
    model <- lift_result (field "model" (Some data)) ;;
    usage <- lift_result (field "usage" (Some data)) ;;
    prompt_tokens <- lift_result (field "prompt_tokens" usage) ;;
    completion_tokens <- lift_result (field "completion_tokens" usage) ;;
    total_tokens <- lift_result (field "total_tokens" usage) ;;
    id <- lift_result (field "id" (Some data)) ;;
    task_ret {| r_content := content;
                r_model := model;
                r_usage := {| promptTokens := prompt_tokens;
                              completionTokens := completion_tokens;
                              totalTokens := total_tokens |};
                r_id := id |}.

(** [if (systemPrompt)] holds for a non-empty string. *)
Definition complete (f : Fetch) (this : OpenRouterClient) (prompt : string)
    (systemPrompt : option string) (options : option ChatOptions) : Task Event W json :=
  let messages :=
    match systemPrompt with
    | Some sp => if sp =? "" then [] else [{| role := system; content := sp |}]
    | None => []
    end
    ++ [{| role := user; content := prompt |}] in
  response <- chat f this messages
                (match options with Some o => o | None => noOptions end) ;;
  task_ret (r_content response).

(** [overrides?.k ?? rest] *)
Definition override {A} (overrides : option Overrides) (k : Overrides -> option A)
    (rest : option A) : option A :=
  match overrides with
  | Some o => match k o with Some v => Some v | None => rest end
  | None => rest
  end.

Definition createOpenRouterClient (overrides : option Overrides) (env : ProcessEnv)
    : Result OpenRouterClient :=
  match override overrides o_apiKey (OPENROUTER_API_KEY env) with
  | Some apiKey =>
      if apiKey =? "" then
        Throw (ThrownError (mkError "OPENROUTER_API_KEY environment variable is required"))
      else
        Ok (constructor
              {| apiKey := apiKey;
                 model :=
                   match override overrides o_model (OPENROUTER_MODEL env) with
                   | Some m => m
                   | None => "openai/gpt-4o"
                   end;
                 baseUrl := override overrides o_baseUrl (OPENROUTER_BASE_URL env);
                 siteUrl := override overrides o_siteUrl None;
                 siteName := override overrides o_siteName None |})
  | None =>
      Throw (ThrownError (mkError "OPENROUTER_API_KEY environment variable is required"))
  end.

End Client.

Arguments JsonNull {Num}.
Arguments JsonBool {Num} b.
Arguments JsonNum {Num} x.
Arguments JsonStr {Num} s.
Arguments JsonArr {Num} items.
Arguments JsonObj {Num} props.
Arguments lookup {Num} k props.
Arguments field {Num} k v.
Arguments optField {Num} k v.
Arguments first {Num} v.
Arguments orElse {Num} v fallback.
Arguments toStr {Num} showNum v.
Arguments noOptions {Num}.
Arguments maxTokens {Num} _.
Arguments temperature {Num} _.
Arguments topP {Num} _.
Arguments stop {Num} _.
Arguments r_content {Num} _.
Arguments r_model {Num} _.
Arguments r_usage {Num} _.
Arguments r_id {Num} _.
Arguments url {Num} _.
Arguments method {Num} _.
Arguments headers {Num} _.
Arguments body {Num} _.
Arguments b_model {Num} _.
Arguments b_messages {Num} _.
Arguments b_max_tokens {Num} _.
Arguments b_temperature {Num} _.
Arguments b_top_p {Num} _.
Arguments b_stop {Num} _.
Arguments ok {Num} _.
Arguments status {Num} _.
Arguments json_body {Num} _.
Arguments EvFetch {Num} req res.
Arguments fetch {W Num} f req _.
Arguments lift_result {W Num A} r _.
Arguments chat {W Num} showNum f this messages options _.
Arguments complete {W Num} showNum f this prompt systemPrompt options _.

End OpenRouter.

(** * Vocabulary of the statements *)

Definition isHookEvent (e : Event) : bool :=
  match e with
  | EvSetStatus _ | EvSetIsLoading _ | EvSetError _ | EvSetTxState _ => true
  | _ => false
  end.

(** The events of a function of [registry.ts]: chain calls and console
    output, never a write to the hook's cells. *)
Definition libOnly (evs : list Event) : Prop :=
  forall e, In e evs -> isHookEvent e = false.

(** The three reads of a run of [checkRegistration] that reaches the
    normalizer: the predicate answers with a truthy value, then the
    identifier and the record are returned. *)
Definition fetchesAgent {W} (pc : PublicClient W) (registry owner : Address) (w : W)
    (agentId agentData : value) : Prop :=
  exists isReg w1 w2 w3,
    pc_readContract pc (isAgentRegistered_call registry owner) w = (Ok isReg, w1) /\
    truthy isReg = true /\
    pc_readContract pc (getAgentByOwner_call registry owner) w1 = (Ok agentId, w2) /\
    pc_readContract pc (getAgent_call registry agentId) w2 = (Ok agentData, w3).

(** The status [checkRegistration] builds from what the normalizer says. *)
Definition statusOf (n : Result Normalized) : RegistrationStatus :=
  match n with
  | Ok (Parsed info) => {| isRegistered := true; agentInfo := Some info |}
  | Ok Unexpected => notRegistered
  | Throw _ => notRegistered
  end.

(** The call of [registry.ts] an action of the hook makes once its guard
    has passed, and the message it gives a thrown value that is no [Error]. *)
Definition libCall {W} (options : UseAgentRegistryOptions W) (pc : PublicClient W)
    (wc : WalletClient W) (st : option RegistrationStatus) (a : WriteAction)
    : M W TransactionResult :=
  match a with
  | Register metadata stakeAmount =>
      registerAgent pc wc (network options) metadata stakeAmount (registryAddress options)
  | UpdateCapabilities capabilities =>
      updateAgentCapabilities pc wc (network options) (knownAgentId st) capabilities
        (registryAddress options)
  | AddStake amount =>
      addAgentStake pc wc (network options) (knownAgentId st) amount (registryAddress options)
  | WithdrawStake amount =>
      withdrawAgentStake pc wc (network options) (knownAgentId st) amount
        (registryAddress options)
  | Deactivate =>
      deactivateAgent pc wc (network options) (knownAgentId st) (registryAddress options)
  | Reactivate =>
      reactivateAgent pc wc (network options) (knownAgentId st) (registryAddress options)
  end.

Definition fallbackMessage (a : WriteAction) : string :=
  match a with
  | Register _ _ => "Registration failed"
  | UpdateCapabilities _ => "Update failed"
  | AddStake _ => "Staking failed"
  | WithdrawStake _ => "Withdrawal failed"
  | Deactivate => "Deactivation failed"
  | Reactivate => "Reactivation failed"
  end.

(** The positional order of the record, as the specification lists it:
    [[owner, name, version, capabilities, stake, reputation, isActive,
    registeredAt]]. *)
Definition fieldOrder : list string :=
  ["owner"; "name"; "version"; "capabilities"; "stake"; "reputation"; "isActive";
   "registeredAt"].

(** The positional sequence that carries the field values of a structured
    record. *)
Definition positional (agentData : value) : value :=
  JArray (map (fun k => get k agentData) fieldOrder).

Definition isHexDigit (c : ascii) : bool :=
  let n := nat_of_ascii c in
  ((48 <=? n)%nat && (n <=? 57)%nat)
  || ((65 <=? n)%nat && (n <=? 70)%nat)
  || ((97 <=? n)%nat && (n <=? 102)%nat).

(** A well-formed 32-byte topic: ["0x"] and 64 hexadecimal digits. *)
Definition isHash32 (t : string) : bool :=
  match t with
  | String "0" (String "x" body) =>
      (String.length body =? 64)%nat && forallb isHexDigit (list_ascii_of_string body)
  | _ => false
  end.

(** No signer: the wallet client is missing, or it has no account. *)
Definition signerAbsent {W} (options : UseAgentRegistryOptions W) : bool :=
  match walletClient options with
  | Some wc =>
      match wc_account wc with
      | Some _ => false
      | None => true
      end
  | None => true
  end.

(** The two messages with which the code reports a missing signer. *)
Definition isNotConnected (e : Error) : bool :=
  match e with
  | mkError m =>
      (m =? "Wallet not connected") || (m =? "Agent not registered or wallet not connected")
  end.

(** ** Concrete clients

    A world that counts the calls made to the chain client, and clients
    scripted by the name of the contract function. *)
Module Demo.

Definition owner : Address := "0x1111111111111111111111111111111111111111".
Definition registry : Address := "0x517De4c9Afa737A46Dcba61e1548AB3807963094".

Definition agentId : Hash :=
  "0xaaaaaaaaaaaaaaaaaaaaaaaaaaaaaaaaaaaaaaaaaaaaaaaaaaaaaaaaaaaaaaaa".

Definition txHash : Hash :=
  "0xbbbbbbbbbbbbbbbbbbbbbbbbbbbbbbbbbbbbbbbbbbbbbbbbbbbbbbbbbbbbbbbb".

(** keccak256 of the declaration of some other event. *)
Definition otherTopic : Hash :=
  "0xDDF252AD1BE2C89B69C2B068FC378DAA952BA7F163C4A11628F55A4DF523B3EF".

Definition structProps : list (string * value) :=
  [("owner", JString owner); ("name", JString "MyAgent");
   ("version", JString "0.1.0");
   ("capabilities", JArray [JString "text-generation"]);
   ("stake", JBigInt 10000000000000000); ("reputation", JBigInt 0);
   ("isActive", JBool true); ("registeredAt", JBigInt 1700000000)].

Definition structRecord : value := JObject structProps.

Definition tupleRecord : value := positional structRecord.

Definition transportFault : Thrown := ThrownError (mkError "fetch failed").

Definition receipt : Receipt :=
  {| logs := [ {| topics := [otherTopic; agentId]; data := "0x" |} ] |}.

(** A registry on which [owner] is registered and [getAgent] answers
    [agentData]. *)
Definition publicClientWith (agentData : value) : PublicClient nat :=
  {| pc_readContract := fun req n =>
       (if rd_functionName req =? "isAgentRegistered" then Ok (JBool true)
        else if rd_functionName req =? "getAgentByOwner" then Ok (JString agentId)
        else if rd_functionName req =? "getAgent" then Ok agentData
        else Throw transportFault, S n);
     pc_waitForTransactionReceipt := fun h n => (Ok receipt, S n) |}.

(** A transport that fails from the [k]-th call on (counting from 0). *)
Definition failingFrom (k : nat) : PublicClient nat :=
  {| pc_readContract := fun req n =>
       (if (k <=? n)%nat then Throw transportFault
        else fst (pc_readContract (publicClientWith structRecord) req n), S n);
     pc_waitForTransactionReceipt := fun h n =>
       (if (k <=? n)%nat then Throw transportFault else Ok receipt, S n) |}.

Definition wallet : WalletClient nat :=
  {| wc_account := Some owner;
     wc_writeContract := fun req n => (Ok txHash, S n) |}.

Definition walletWithoutAccount : WalletClient nat :=
  {| wc_account := None;
     wc_writeContract := fun req n => (Ok txHash, S n) |}.

Definition rejectingWallet : WalletClient nat :=
  {| wc_account := Some owner;
     wc_writeContract := fun req n =>
       (Throw (ThrownError (mkError "User rejected the request")), S n) |}.

Definition metadata : AgentMetadata :=
  {| md_name := "MyAgent"; md_version := "0.1.0";
     md_capabilities := ["text-generation"] |}.

Definition optionsWith (pc : option (PublicClient nat)) (wc : option (WalletClient nat))
    (net : SupportedNetwork) : UseAgentRegistryOptions nat :=
  {| publicClient := pc; walletClient := wc; network := net;
     userAddress := Some owner; registryAddress := None |}.

Definition fresh : Store nat := {| chain := 0; hook := initialState |}.

Definition registeredInfo : RegistryAgentInfo :=
  {| info_agentId := JString agentId; info_owner := JString owner;
     info_name := JString "MyAgent"; info_version := JString "0.1.0";
     info_capabilities := JArray [JString "text-generation"];
     info_stake := JBigInt 10000000000000000; info_reputation := JBigInt 0;
     info_isActive := JBool true; info_registeredAt := JBigInt 1700000000 |}.

(** The hook after a first refresh found the agent. *)
Definition registered : Store nat :=
  {| chain := 3;
     hook := {| status := Some {| isRegistered := true; agentInfo := Some registeredInfo |};
                isLoading := false; error := None; txState := TxIdle |} |}.

End Demo.

Definition isRegister (a : WriteAction) : bool :=
  match a with
  | Register _ _ => true
  | _ => false
  end.

(** ** Concrete runs *)
Module Runs.

(** A registration the wallet refuses to sign, on the deployed test
    network. *)
Definition rejectedRegistration :=
  invoke (Demo.optionsWith (Some (Demo.publicClientWith Demo.structRecord))
            (Some Demo.rejectingWallet) arbitrum_sepolia)
    (Register Demo.metadata None) Demo.fresh.

(** A registration with a wallet client that has no account. *)
Definition accountlessOptions : UseAgentRegistryOptions nat :=
  Demo.optionsWith (Some (Demo.publicClientWith Demo.structRecord))
    (Some Demo.walletWithoutAccount) arbitrum_sepolia.

Definition accountlessRegistration :=
  invoke accountlessOptions (Register Demo.metadata None) Demo.fresh.

(** A registration that goes through while the transport fails during the
    refresh that follows it. *)
Definition flakyOptions : UseAgentRegistryOptions nat :=
  Demo.optionsWith (Some (Demo.failingFrom 2)) (Some Demo.wallet) arbitrum_sepolia.

Definition registrationWithFailedRefresh :=
  invoke flakyOptions (Register Demo.metadata None) Demo.fresh.

(** [updateAgentCapabilities] called on the network whose registry is the
    null sentinel. *)
Definition updateOnNullRegistry :=
  updateAgentCapabilities (Demo.publicClientWith Demo.structRecord) Demo.wallet
    arbitrum (JString Demo.agentId) ["text-generation"] None 0.

(** The same through the hook, whose cached status still holds an agent
    identifier. *)
Definition updateOnNullRegistryViaHook :=
  invoke (Demo.optionsWith (Some (Demo.publicClientWith Demo.structRecord))
            (Some Demo.wallet) arbitrum)
    (UpdateCapabilities ["text-generation"]) Demo.registered.

End Runs.

(** ** Vocabulary of the further properties *)

(** An event [checkRegistration] may perform against [registry]: a read
    of that contract, or console output. *)
Definition isReadOf (registry : Address) (e : Event) : bool :=
  match e with
  | EvReadContract req _ => rd_address req =? registry
  | EvConsoleLog _ | EvConsoleError _ => true
  | _ => false
  end.

Definition chainCalls (evs : list Event) : nat :=
  List.length (filter isChainEvent evs).

(** The value each function of the write path attaches to its call. *)
Definition attachedValue (a : WriteAction) : option Z :=
  match a with
  | Register _ stakeAmount =>
      Some (match stakeAmount with Some v => v | None => 0%Z end)
  | AddStake amount => Some amount
  | _ => None
  end.

(** The request submitted by an event, if it is a submission. *)
Definition submitted (e : Event) : option WriteRequest :=
  match e with
  | EvWriteContract req _ => Some req
  | _ => None
  end.

(** A string without a space, as a numeric Telegram identifier is. *)
Fixpoint noSpace (s : string) : bool :=
  match s with
  | EmptyString => true
  | String c rest => negb (Ascii.eqb c " ") && noSpace rest
  end.

(** The texts the bot sent, or tried to send, and the requests it made to
    the model. *)
Fixpoint replies (evs : list AiAgent.Event) : list string :=
  match evs with
  | [] => []
  | AiAgent.EvReply text _ :: rest => text :: replies rest
  | _ :: rest => replies rest
  end.

Fixpoint modelRequests (evs : list AiAgent.Event) : list AiAgent.CompletionRequest :=
  match evs with
  | [] => []
  | AiAgent.EvCreate req _ :: rest => req :: modelRequests rest
  | _ :: rest => modelRequests rest
  end.

(** The value of a header of a request, if it is sent. *)
Fixpoint headerValue (name : string) (headers : list (string * string)) : option string :=
  match headers with
  | [] => None
  | (k, v) :: rest => if k =? name then Some v else headerValue name rest
  end.

(** A string that is there and is not empty. *)
Definition nonEmpty (v : option string) : option string :=
  match v with
  | Some s => if s =? "" then None else Some s
  | None => None
  end.

(** The first of two optional values that is there. *)
Definition orFrom {A} (a b : option A) : option A :=
  match a with
  | Some x => Some x
  | None => b
  end.

(** Whether a returned status says "registered". *)
Definition isRegistered_of (r : Result RegistrationStatus) : option bool :=
  match r with
  | Ok st => Some (isRegistered st)
  | Throw _ => None
  end.

(** ** Concrete collaborators *)
Module Collaborators.

(** A wallet that "signs" by prefixing the message, and the verifier that
    goes with it. *)
Definition sign (msg : string) : string := ("signed:" ++ msg)%string.

Definition verifier : LinkService.Verifier :=
  fun address msg signature => Ok (signature =? sign msg).

Definition linkEnv (address : option Address) (serverOk : Result bool)
    : TelegramLink.Env nat :=
  {| TelegramLink.env_address := address;
     TelegramLink.env_nonce := fun n => ("k3x9", S n);
     TelegramLink.env_signMessageAsync := fun msg n => (Ok (sign msg), S n);
     TelegramLink.env_fetch := fun req n => (serverOk, S n) |}.

Definition linkStore : TelegramLink.Store nat :=
  {| TelegramLink.world := 0;
     TelegramLink.cells := {| TelegramLink.isLoading := false;
                              TelegramLink.isLinked := false |} |}.

(** A registry on which nobody is registered. *)
Definition emptyRegistry : PublicClient nat :=
  {| pc_readContract := fun req n => (Ok (JBool false), S n);
     pc_waitForTransactionReceipt := fun h n => (Ok Demo.receipt, S n) |}.

(** A wallet that rejects with a value that is no [Error]. *)
Definition stringThrowingWallet : WalletClient nat :=
  {| wc_account := Some Demo.owner;
     wc_writeContract := fun req n => (Throw (ThrownValue (JString "rejected")), S n) |}.

(** A receipt with a log the registration does recognise, after one it
    does not. *)
Definition otherLog : Log := {| topics := [Demo.otherTopic; Demo.txHash]; data := "0x" |}.

Definition namedLog : Log :=
  {| topics := ["0xAgentRegistered"; Demo.agentId]; data := "0x" |}.

Definition namedReceipt : Receipt := {| logs := [otherLog; namedLog; otherLog] |}.

Definition namingClient : PublicClient nat :=
  {| pc_readContract := pc_readContract (Demo.publicClientWith Demo.structRecord);
     pc_waitForTransactionReceipt := fun h n => (Ok namedReceipt, S n) |}.

Definition demoOptions : UseAgentRegistryOptions nat :=
  Demo.optionsWith (Some (Demo.publicClientWith Demo.structRecord)) (Some Demo.wallet)
    arbitrum_sepolia.


Definition unreachable : AiAgent.OpenAI nat :=
  fun req n => (Throw Demo.transportFault, S n).

Definition chatWith (text : string) : AiAgent.Context nat :=
  {| AiAgent.ctx_text := text;
     AiAgent.ctx_replyWithChatAction := fun action n => (Ok tt, S n);
     AiAgent.ctx_reply := fun text n => (Ok tt, S n) |}.







End Collaborators.

(** * Properties *)

(** ** Events and strings *)

Lemma libOnly_nil : libOnly [].
Proof. intros e []. Qed.

Lemma libOnly_cons e evs : isHookEvent e = false -> libOnly evs -> libOnly (e :: evs).
Proof. intros He Hevs x [<- | Hx]; auto. Qed.

Lemma libOnly_app evs1 evs2 : libOnly evs1 -> libOnly evs2 -> libOnly (evs1 ++ evs2).
Proof.
  intros H1 H2 e Hin. apply in_app_or in Hin. destruct Hin; auto.
Qed.

Create HintDb lib.
#[local] Hint Resolve libOnly_nil libOnly_cons libOnly_app : lib.

Lemma txWrites_app evs1 evs2 : txWrites (evs1 ++ evs2) = txWrites evs1 ++ txWrites evs2.
Proof.
  induction evs1 as [|e evs1 IH]; simpl; [reflexivity|].
  destruct e; simpl; rewrite ?IH; reflexivity.
Qed.

Lemma libOnly_txWrites evs : libOnly evs -> txWrites evs = [].
Proof.
  induction evs as [|e evs IH]; intros H; [reflexivity|].
  assert (He : isHookEvent e = false) by (apply H; left; reflexivity).
  assert (Hevs : libOnly evs) by (intros x Hx; apply H; right; exact Hx).
  destruct e; simpl in *; try discriminate; auto.
Qed.

Lemma libOnly_no_refresh evs : libOnly evs -> existsb isRefreshEvent evs = false.
Proof.
  induction evs as [|e evs IH]; intros H; [reflexivity|].
  assert (He : isHookEvent e = false) by (apply H; left; reflexivity).
  assert (Hevs : libOnly evs) by (intros x Hx; apply H; right; exact Hx).
  destruct e; simpl in *; try discriminate; auto.
Qed.

Lemma toLowerCase_length s : String.length (toLowerCase s) = String.length s.
Proof. induction s as [|c s IH]; simpl; [reflexivity | now rewrite IH]. Qed.

Lemma find_no_match {A} (f : A -> bool) (l : list A) :
  (forall x, In x l -> f x = false) -> find f l = None.
Proof.
  induction l as [|x l IH]; intros H; simpl; [reflexivity|].
  rewrite (H x (or_introl eq_refl)). apply IH. intros y Hy. apply H. now right.
Qed.

(** A decimal index never spells a field name that starts with a letter. *)
Lemma index_key_not_named (c : ascii) (rest : string) (i : nat) :
  (48 <=? nat_of_ascii c)%nat && (nat_of_ascii c <=? 57)%nat = false ->
  (String c rest =? index_key i) = false.
Proof.
  intros Hc. unfold index_key.
  destruct (Nat.to_uint i); simpl; try reflexivity;
    match goal with
    | |- (if Ascii.eqb c ?d then _ else _) = false =>
        destruct (Ascii.eqb_spec c d) as [-> | _]; [discriminate Hc | reflexivity]
    end.
Qed.

Lemma array_has_no_owner items : has "owner" (JArray items) = false.
Proof.
  unfold has. change ("owner" =? "length") with false.
  generalize (seq 0 (List.length items)). intros l.
  induction l as [|i l IH]; cbn [existsb orb] in *; [reflexivity|].
  rewrite (index_key_not_named "o" "wner" i eq_refl : ("owner" =? index_key i) = false).
  exact IH.
Qed.

Lemma array_has_no_stake items : has "stake" (JArray items) = false.
Proof.
  unfold has. change ("stake" =? "length") with false.
  generalize (seq 0 (List.length items)). intros l.
  induction l as [|i l IH]; cbn [existsb orb] in *; [reflexivity|].
  rewrite (index_key_not_named "s" "take" i eq_refl : ("stake" =? index_key i) = false).
  exact IH.
Qed.

Lemma isStruct_array items : isStruct (JArray items) = false.
Proof. unfold isStruct. rewrite array_has_no_owner. reflexivity. Qed.

Lemma hasStake_array items : hasStake (JArray items) = false.
Proof. unfold hasStake. rewrite array_has_no_stake. reflexivity. Qed.

Lemma isStruct_object agentData :
  isStruct agentData = true ->
  exists props v, agentData = JObject props /\ lookup "owner" props = Some v.
Proof.
  destruct agentData as [| | b | n | s | items | props]; intros H.
  1-5: unfold isStruct in H; cbn [typeof_object] in H;
       rewrite ?andb_false_r in H; discriminate H.
  - rewrite isStruct_array in H. discriminate.
  - unfold isStruct, has in H. cbn [truthy typeof_object andb] in H.
    destruct (lookup "owner" props) as [v|] eqn:E; [|discriminate].
    now exists props, v.
Qed.

(** ** The read path *)

Ltac run_monad :=
  unfold try_catch, try_finally, bind, readContract, writeContract,
    waitForTransactionReceipt, emit, ret, throw, lift_result.

Ltac next_read :=
  match goal with
  | |- context [pc_readContract ?pc ?req ?w] =>
      let E := fresh "Hread" in
      destruct (pc_readContract pc req w) as [[?v | ?t] ?w] eqn:E
  end.

Ltac in_events H :=
  simpl in H;
  repeat match type of H with
         | _ \/ _ => destruct H as [H | H]
         | False => destruct H
         | _ = _ => try discriminate H; try (inversion H; fail)
         end.

Section ReadPath.

Variable W : Type.
Implicit Types (pc : PublicClient W) (w : W).

Lemma libOnly_decide evs : forallb (fun e => negb (isHookEvent e)) evs = true -> libOnly evs.
Proof.
  intros H e He. rewrite forallb_forall in H. specialize (H e He).
  now destruct (isHookEvent e).
Qed.

Lemma checkRegistration_null_registry pc net owner ra w :
  resolveRegistry ra net = NULL_ADDRESS ->
  checkRegistration pc net owner ra w = (Ok notRegistered, w, []).
Proof.
  intros H. unfold checkRegistration. rewrite H. reflexivity.
Qed.

(** Every run of [checkRegistration] completes normally, touches nothing
    but the chain and the console, and answers "not registered" as soon as
    one of its reads faults. *)
Lemma checkRegistration_total pc net owner ra w :
  exists st w' evs,
    checkRegistration pc net owner ra w = (Ok st, w', evs) /\
    libOnly evs /\
    (forall req t, In (EvReadContract req (Throw t)) evs -> st = notRegistered).
Proof.
  unfold checkRegistration.
  destruct (resolveRegistry ra net =? _).
  { exists notRegistered, w, []. repeat split; auto with lib. }
  run_monad.
  next_read; simpl.
  2:{ eexists _, _, _. split; [reflexivity|]. split; [apply libOnly_decide; reflexivity|].
      reflexivity. }
  destruct (truthy v); simpl.
  2:{ eexists _, _, _. split; [reflexivity|]. split; [apply libOnly_decide; reflexivity|].
      reflexivity. }
  next_read; simpl.
  2:{ eexists _, _, _. split; [reflexivity|]. split; [apply libOnly_decide; reflexivity|].
      reflexivity. }
  next_read; simpl.
  2:{ eexists _, _, _. split; [reflexivity|]. split; [apply libOnly_decide; reflexivity|].
      reflexivity. }
  destruct (normalizeAgentData v0 v1) as [[info|]|t]; simpl;
    (eexists _, _, _; split; [reflexivity|]; split; [apply libOnly_decide; reflexivity|]);
    intros req t' H; in_events H; reflexivity.
Qed.

Lemma checkRegistration_normalizes pc net owner ra w agentId agentData :
  resolveRegistry ra net <> NULL_ADDRESS ->
  fetchesAgent pc (resolveRegistry ra net) owner w agentId agentData ->
  result_of (checkRegistration pc net owner ra w)
  = Ok (statusOf (normalizeAgentData agentId agentData)).
Proof.
  intros Hreg (isReg & w1 & w2 & w3 & H1 & Ht & H2 & H3).
  unfold checkRegistration.
  destruct (String.eqb_spec (resolveRegistry ra net)
              "0x0000000000000000000000000000000000000000") as [E|_].
  { contradiction. }
  run_monad. rewrite H1. simpl. rewrite Ht. simpl. rewrite H2. simpl. rewrite H3. simpl.
  destruct (normalizeAgentData agentId agentData) as [[info|]|t]; reflexivity.
Qed.

End ReadPath.

(** ** The write path *)

Ltac next_call :=
  match goal with
  | |- context [pc_readContract ?pc ?req ?w] =>
      destruct (pc_readContract pc req w) as [[?v | ?t] ?w] eqn:?Hread
  | |- context [wc_writeContract ?wc ?req ?w] =>
      destruct (wc_writeContract wc req w) as [[?h | ?t] ?w] eqn:?Hwrite
  | |- context [pc_waitForTransactionReceipt ?pc ?h ?w] =>
      destruct (pc_waitForTransactionReceipt pc h w) as [[?rc | ?t] ?w] eqn:?Hwait
  end.

Ltac lib_events :=
  run_monad;
  repeat (first [ next_call | progress simpl ]);
  try (apply libOnly_decide; reflexivity).

Section WritePath.

Variable W : Type.
Implicit Types (pc : PublicClient W) (wc : WalletClient W) (w : W).

Lemma registerAgent_libOnly pc wc net md stake ra w :
  libOnly (events_of (registerAgent pc wc net md stake ra w)).
Proof.
  unfold registerAgent. destruct (wc_account wc); [|apply libOnly_decide; reflexivity].
  destruct (resolveRegistry ra net =? _); [apply libOnly_decide; reflexivity|].
  lib_events.
Qed.

Lemma updateAgentCapabilities_libOnly pc wc net id caps ra w :
  libOnly (events_of (updateAgentCapabilities pc wc net id caps ra w)).
Proof.
  unfold updateAgentCapabilities.
  destruct (wc_account wc); [|apply libOnly_decide; reflexivity]. lib_events.
Qed.

Lemma addAgentStake_libOnly pc wc net id amount ra w :
  libOnly (events_of (addAgentStake pc wc net id amount ra w)).
Proof.
  unfold addAgentStake.
  destruct (wc_account wc); [|apply libOnly_decide; reflexivity]. lib_events.
Qed.

Lemma withdrawAgentStake_libOnly pc wc net id amount ra w :
  libOnly (events_of (withdrawAgentStake pc wc net id amount ra w)).
Proof.
  unfold withdrawAgentStake.
  destruct (wc_account wc); [|apply libOnly_decide; reflexivity]. lib_events.
Qed.

Lemma deactivateAgent_libOnly pc wc net id ra w :
  libOnly (events_of (deactivateAgent pc wc net id ra w)).
Proof.
  unfold deactivateAgent.
  destruct (wc_account wc); [|apply libOnly_decide; reflexivity]. lib_events.
Qed.

Lemma reactivateAgent_libOnly pc wc net id ra w :
  libOnly (events_of (reactivateAgent pc wc net id ra w)).
Proof.
  unfold reactivateAgent.
  destruct (wc_account wc); [|apply libOnly_decide; reflexivity]. lib_events.
Qed.

Lemma libCall_libOnly (options : UseAgentRegistryOptions W) pc wc st a w :
  libOnly (events_of (libCall options pc wc st a w)).
Proof.
  destruct a; simpl;
    auto using registerAgent_libOnly, updateAgentCapabilities_libOnly,
      addAgentStake_libOnly, withdrawAgentStake_libOnly, deactivateAgent_libOnly,
      reactivateAgent_libOnly.
Qed.

(** With the signer's account missing every function of the write path
    throws before it reaches the chain. *)
Lemma libCall_no_account (options : UseAgentRegistryOptions W) pc wc st a w :
  wc_account wc = None ->
  libCall options pc wc st a w = (Throw (ThrownError (mkError "Wallet not connected")), w, []).
Proof.
  intros H. destruct a; simpl;
    unfold registerAgent, updateAgentCapabilities, addAgentStake, withdrawAgentStake,
      deactivateAgent, reactivateAgent; rewrite H; reflexivity.
Qed.

End WritePath.

(** ** The tracker *)

Section Tracker.

Variable W : Type.
Implicit Types (options : UseAgentRegistryOptions W) (s : Store W) (a : WriteAction).

Ltac run_hook :=
  unfold try_catch, try_finally, bind, emit, ret, throw, lift, withStatus,
    setStatus, setIsLoading, setError, setTxState, update.

(** A refresh always completes normally; it replaces the cached status and
    leaves the transaction state alone, whatever the chain client does. *)
Lemma fetchStatus_total options s :
  exists s' evs,
    fetchStatus options s = (Ok tt, s', evs) /\
    txState (hook s') = txState (hook s) /\
    txWrites evs = [] /\
    existsb isRefreshEvent evs = true.
Proof.
  unfold fetchStatus.
  destruct (publicClient options) as [pc|].
  2:{ run_hook. eexists _, _. repeat split. }
  destruct (present (userAddress options)) as [owner|].
  2:{ run_hook. eexists _, _. repeat split. }
  destruct (checkRegistration_total W pc (network options) owner
              (registryAddress options) (chain s)) as (st & w' & evs & E & Hlib & _).
  run_hook. cbn [chain hook]. rewrite E. cbn.
  eexists _, _. split; [reflexivity|]. cbn. split; [reflexivity|].
  rewrite !txWrites_app, (libOnly_txWrites evs Hlib).
  rewrite !existsb_app. cbn. split; [reflexivity|].
  now rewrite !orb_true_r.
Qed.

Lemma trackTransaction_ok options fallback call s r w1 evs0 :
  call (chain s) = (Ok r, w1, evs0) ->
  libOnly evs0 ->
  exists s' evsR,
    trackTransaction options fallback call s
    = (Ok r, s',
       EvSetTxState (TxPending None) :: EvSetError None :: evs0
         ++ EvSetTxState (TxSuccess (tr_hash r)) :: evsR) /\
    txWrites evsR = [] /\
    existsb isRefreshEvent evsR = true /\
    txState (hook s') = TxSuccess (tr_hash r).
Proof.
  intros Hcall Hlib. unfold trackTransaction.
  set (s1 := {| chain := w1;
                hook := {| status := status (hook s); isLoading := isLoading (hook s);
                           error := None; txState := TxSuccess (tr_hash r) |} |}).
  destruct (fetchStatus_total options s1) as (s' & evsR & E & Htx & Hw & Href).
  exists s', evsR.
  run_hook. cbn [chain hook status isLoading error txState]. rewrite Hcall.
  cbn [chain hook status isLoading error txState]. fold s1. rewrite E.
  cbn. rewrite app_nil_r. repeat split; auto.
Qed.

Lemma trackTransaction_throw options fallback call s t w1 evs0 :
  call (chain s) = (Throw t, w1, evs0) ->
  trackTransaction options fallback call s
  = (Throw (ThrownError (asError t fallback)),
     {| chain := w1;
        hook := {| status := status (hook s); isLoading := isLoading (hook s);
                   error := Some (asError t fallback);
                   txState := TxError (asError t fallback) |} |},
     EvSetTxState (TxPending None) :: EvSetError None :: evs0
       ++ [EvSetTxState (TxError (asError t fallback));
           EvSetError (Some (asError t fallback))]).
Proof.
  intros Hcall. unfold trackTransaction. run_hook.
  cbn [chain hook status isLoading error txState]. rewrite Hcall. reflexivity.
Qed.

(** What an action does once its guard has passed, and when it has not. *)
Lemma invoke_guarded options a s :
  guardPasses options a (hook s) = true ->
  exists pc wc,
    publicClient options = Some pc /\ walletClient options = Some wc /\
    invoke options a s
    = trackTransaction options (fallbackMessage a)
        (libCall options pc wc (status (hook s)) a) s.
Proof.
  unfold guardPasses. intros H.
  destruct (publicClient options) as [pc|] eqn:Epc; [|discriminate].
  destruct (walletClient options) as [wc|] eqn:Ewc; [|discriminate].
  exists pc, wc. repeat split.
  destruct a; cbn [invoke libCall fallbackMessage];
    unfold register, updateCapabilities, addStake, withdrawStake, deactivate,
      reactivate, withStatus; rewrite ?Epc, ?Ewc, ?H; reflexivity.
Qed.

Lemma invoke_unguarded options a s :
  guardPasses options a (hook s) = false ->
  invoke options a s
  = (Throw (ThrownError (mkError
       match a with
       | Register _ _ => "Wallet not connected"
       | _ => "Agent not registered or wallet not connected"
       end)), s, []).
Proof.
  unfold guardPasses. intros H.
  destruct a; cbn [invoke];
    unfold register, updateCapabilities, addStake, withdrawStake, deactivate,
      reactivate, withStatus;
    destruct (publicClient options); try reflexivity;
    destruct (walletClient options); try reflexivity;
    try discriminate H; rewrite H; reflexivity.
Qed.

End Tracker.

(** ** Claims on the read path *)

Section ReadClaims.

Variable W : Type.
Implicit Types (pc : PublicClient W) (w : W).

(** C1: whatever the network, the owner address and the behaviour of the
    chain client, [checkRegistration] completes normally (it never throws),
    and in every run in which one of its contract reads (the registration
    predicate, the agent-id lookup or the full-record fetch) fails with a
    fault, the fault is caught and the answer is [{isRegistered: false}]. *)
Theorem checkRegistration_absorbs_faults pc net owner ra w :
  (exists st, result_of (checkRegistration pc net owner ra w) = Ok st) /\
  (forall req t,
      In (EvReadContract req (Throw t)) (events_of (checkRegistration pc net owner ra w)) ->
      result_of (checkRegistration pc net owner ra w) = Ok notRegistered).
Proof.
  destruct (checkRegistration_total W pc net owner ra w) as (st & w' & evs & E & _ & Hfault).
  rewrite E. unfold result_of, events_of. cbn [fst snd]. split.
  - now exists st.
  - intros req t Hin. now rewrite (Hfault req t Hin).
Qed.

Lemma normalize_struct agentId props caps :
  isStruct (JObject props) = true ->
  get "capabilities" (JObject props) = JArray caps ->
  normalizeAgentData agentId (JObject props)
  = normalizeAgentData agentId (positional (JObject props)).
Proof.
  intros Hs Hc. unfold normalizeAgentData at 1. rewrite Hs, Hc. cbn [iterate].
  unfold positional, normalizeAgentData. rewrite isStruct_array.
  cbn [isArray fieldOrder map at_index nth]. rewrite Hc. reflexivity.
Qed.

Lemma normalize_neither agentId agentData :
  isStruct agentData = false -> isArray agentData = false ->
  normalizeAgentData agentId agentData = Ok Unexpected.
Proof. intros Hs Ha. unfold normalizeAgentData. now rewrite Hs, Ha. Qed.

(** C2: for a registered owner, a structured record with named fields and
    the positional sequence [[owner, name, version, capabilities, stake,
    reputation, isActive, registeredAt]] that carries the same field values
    make [checkRegistration] return the same status, registered and with
    the same [agentInfo]; a record of neither shape makes it return
    [{isRegistered: false}]. *)
Theorem normalizer_shapes_agree pc pc' net owner ra w w' agentId :
  resolveRegistry ra net <> NULL_ADDRESS ->
  (forall props caps,
      isStruct (JObject props) = true ->
      get "capabilities" (JObject props) = JArray caps ->
      fetchesAgent pc (resolveRegistry ra net) owner w agentId (JObject props) ->
      fetchesAgent pc' (resolveRegistry ra net) owner w' agentId (positional (JObject props)) ->
      result_of (checkRegistration pc net owner ra w)
      = result_of (checkRegistration pc' net owner ra w') /\
      result_of (checkRegistration pc net owner ra w)
      = Ok {| isRegistered := true;
              agentInfo := Some
                {| info_agentId := agentId;
                   info_owner := get "owner" (JObject props);
                   info_name := get "name" (JObject props);
                   info_version := get "version" (JObject props);
                   info_capabilities := get "capabilities" (JObject props);
                   info_stake := get "stake" (JObject props);
                   info_reputation := get "reputation" (JObject props);
                   info_isActive := get "isActive" (JObject props);
                   info_registeredAt := get "registeredAt" (JObject props) |} |}) /\
  (forall agentData,
      isStruct agentData = false -> isArray agentData = false ->
      fetchesAgent pc (resolveRegistry ra net) owner w agentId agentData ->
      result_of (checkRegistration pc net owner ra w) = Ok notRegistered).
Proof.
  intros Hreg. split.
  - intros props caps Hs Hc Hf Hf'.
    rewrite (checkRegistration_normalizes W pc net owner ra w _ _ Hreg Hf).
    rewrite (checkRegistration_normalizes W pc' net owner ra w' _ _ Hreg Hf').
    rewrite <- (normalize_struct agentId props caps Hs Hc). split; [reflexivity|].
    unfold normalizeAgentData. rewrite Hs.
    generalize Hc. intros ->. cbn [iterate statusOf]. reflexivity.
  - intros agentData Hs Ha Hf.
    rewrite (checkRegistration_normalizes W pc net owner ra w _ _ Hreg Hf).
    now rewrite (normalize_neither agentId agentData Hs Ha).
Qed.

Lemma hasStake_object agentData :
  hasStake agentData = true -> exists props, agentData = JObject props.
Proof.
  destruct agentData as [| | b | n | s | items | props]; intros H.
  1-5: unfold hasStake in H; cbn [typeof_object] in H;
       rewrite ?andb_false_r in H; discriminate H.
  - rewrite hasStake_array in H. discriminate.
  - now exists props.
Qed.

Lemma getAgentStake_reads pc net agentId ra w agentData w' :
  pc_readContract pc (getAgent_call (resolveRegistry ra net) agentId) w = (Ok agentData, w') ->
  getAgentStake pc net agentId ra w
  = (Ok (extractStake agentData), w',
     [EvReadContract (getAgent_call (resolveRegistry ra net) agentId) (Ok agentData)]).
Proof.
  intros H. unfold getAgentStake. run_monad. rewrite H. reflexivity.
Qed.

(** C10: on a raw record that both readers decode (an object with the
    [owner] and [stake] fields, or an array) [getAgentStake] returns the
    [stake] of the record the normalizer of [checkRegistration] builds; on a
    record that is neither an object with a [stake] nor an array it returns
    zero. *)
Theorem stake_readers_agree pc net agentId ra w agentData w' :
  pc_readContract pc (getAgent_call (resolveRegistry ra net) agentId) w = (Ok agentData, w') ->
  (forall id info,
      normalizeAgentData id agentData = Ok (Parsed info) ->
      hasStake agentData = true \/ isArray agentData = true ->
      result_of (getAgentStake pc net agentId ra w) = Ok (info_stake info)) /\
  (hasStake agentData = false -> isArray agentData = false ->
   result_of (getAgentStake pc net agentId ra w) = Ok (JBigInt 0)).
Proof.
  intros Hread. rewrite (getAgentStake_reads _ _ _ _ _ _ _ Hread).
  unfold result_of. cbn [fst]. split.
  - intros id info Hnorm Hshape. f_equal. unfold extractStake.
    unfold normalizeAgentData in Hnorm.
    destruct (isStruct agentData) eqn:Hs.
    + destruct (isStruct_object _ Hs) as (props & v & -> & _).
      destruct (iterate (get "capabilities" (JObject props))); [|discriminate].
      injection Hnorm as <-. cbn [info_stake].
      destruct Hshape as [Hst | Harr]; [|discriminate Harr].
      now rewrite Hst.
    + destruct Hshape as [Hst | Harr].
      * destruct (hasStake_object _ Hst) as (props & ->).
        cbn [isArray] in Hnorm. discriminate.
      * rewrite Harr in Hnorm. injection Hnorm as <-. cbn [info_stake].
        destruct agentData; try discriminate Harr.
        now rewrite hasStake_array.
  - intros Hst Harr. unfold extractStake. now rewrite Hst, Harr.
Qed.

End ReadClaims.

(** ** Claims on the write path *)

Section WriteClaims.

Variable W : Type.
Implicit Types (pc : PublicClient W) (wc : WalletClient W) (w : W).

Lemma isHash32_length t : isHash32 t = true -> String.length t = 66.
Proof.
  destruct t as [|c0 [|c1 body]]; try discriminate.
  - cbn. destruct c0 as [[] [] [] [] [] [] [] []]; discriminate.
  - intros H. cbn [isHash32] in H.
    destruct c0 as [[] [] [] [] [] [] [] []]; try discriminate H.
    destruct c1 as [[] [] [] [] [] [] [] []]; try discriminate H.
    apply andb_prop in H. destruct H as [H _]. apply Nat.eqb_eq in H.
    cbn [String.length]. now rewrite H.
Qed.

Lemma hash32_never_expected t : isHash32 t = true -> (toLowerCase t =? expectedTopic) = false.
Proof.
  intros H. destruct (String.eqb_spec (toLowerCase t) expectedTopic) as [E|]; [|reflexivity].
  apply (f_equal String.length) in E.
  rewrite toLowerCase_length, (isHash32_length t H) in E. discriminate E.
Qed.

Lemma hashed_logs_never_match (rc : Receipt) :
  (forall log t, In log (logs rc) -> In t (topics log) -> isHash32 t = true) ->
  forall log, In log (logs rc) -> isRegisteredEvent log = false.
Proof.
  intros Hwf log Hin. unfold isRegisteredEvent.
  destruct (topics log) as [|t rest] eqn:E; [reflexivity|]. cbn [nth_error].
  apply hash32_never_expected. apply (Hwf log t Hin). rewrite E. now left.
Qed.

Lemma registerAgent_success pc wc net md stake ra w account h w1 rc w2 :
  wc_account wc = Some account ->
  resolveRegistry ra net <> NULL_ADDRESS ->
  wc_writeContract wc (registerAgent_call (resolveRegistry ra net) md stake account) w
  = (Ok h, w1) ->
  pc_waitForTransactionReceipt pc h w1 = (Ok rc, w2) ->
  registerAgent pc wc net md stake ra w
  = (Ok {| tr_hash := h; tr_agentId := eventAgentId (find isRegisteredEvent (logs rc)) |},
     w2,
     [EvWriteContract (registerAgent_call (resolveRegistry ra net) md stake account) (Ok h);
      EvWaitForReceipt h (Ok rc)]).
Proof.
  intros Hacc Hreg Hwrite Hwait. unfold registerAgent. rewrite Hacc.
  destruct (String.eqb_spec (resolveRegistry ra net)
              "0x0000000000000000000000000000000000000000") as [E|_]; [contradiction|].
  run_monad. rewrite Hwrite. cbn. rewrite Hwait. reflexivity.
Qed.

(** C3: the topic [registerAgent] expects is the concatenation of ["0x"]
    and the lower-cased event name, not a hash; it equals no well-formed
    32-byte topic, so for a receipt whose logs carry well-formed hash topics
    the result of a registration that went through has no [agentId]. *)
Theorem expected_topic_never_matches pc wc net md stake ra w account h w1 rc w2 :
  wc_account wc = Some account ->
  resolveRegistry ra net <> NULL_ADDRESS ->
  wc_writeContract wc (registerAgent_call (resolveRegistry ra net) md stake account) w
  = (Ok h, w1) ->
  pc_waitForTransactionReceipt pc h w1 = (Ok rc, w2) ->
  (forall log t, In log (logs rc) -> In t (topics log) -> isHash32 t = true) ->
  expectedTopic = "0xagentregistered" /\
  (forall t, isHash32 t = true -> (toLowerCase t =? expectedTopic) = false) /\
  result_of (registerAgent pc wc net md stake ra w)
  = Ok {| tr_hash := h; tr_agentId := None |}.
Proof.
  intros Hacc Hreg Hwrite Hwait Hwf.
  split; [reflexivity|]. split; [exact hash32_never_expected|].
  rewrite (registerAgent_success _ _ _ _ _ _ _ _ _ _ _ _ Hacc Hreg Hwrite Hwait).
  unfold result_of. cbn [fst].
  now rewrite (find_no_match _ _ (hashed_logs_never_match rc Hwf)).
Qed.

Lemma registerAgent_null_registry pc wc net md stake ra w account :
  wc_account wc = Some account ->
  resolveRegistry ra net = NULL_ADDRESS ->
  registerAgent pc wc net md stake ra w
  = (Throw (ThrownError (mkError "Registry contract not deployed on this network")), w, []).
Proof.
  intros Hacc Hreg. unfold registerAgent. rewrite Hacc, Hreg. reflexivity.
Qed.

(** The other five functions of the write path have no test of the
    sentinel: with an account they submit to whatever address resolves. *)
Lemma updateAgentCapabilities_submits pc wc net id caps ra w account :
  wc_account wc = Some account ->
  exists res rest,
    events_of (updateAgentCapabilities pc wc net id caps ra w)
    = EvWriteContract
        {| wr_address := resolveRegistry ra net; wr_functionName := "updateCapabilities";
           wr_args := [id; JArray (map JString caps)];
           wr_value := None; wr_account := account |} res :: rest.
Proof.
  intros Hacc. unfold updateAgentCapabilities. rewrite Hacc. run_monad.
  repeat (first [ next_call | progress cbn ]); eexists _, _; reflexivity.
Qed.

End WriteClaims.

(** ** Claims on the facade *)

Section FacadeClaims.

Variable W : Type.
Implicit Types (options : UseAgentRegistryOptions W) (s : Store W) (a : WriteAction).



(** C6, as the code has it: an action that settles in [success] then runs
    a status refresh, and whatever happens in that refresh the state stays
    [success] with the same hash; an action that settles in [error] runs no
    refresh. *)
Theorem refresh_follows_success options a s :
  guardPasses options a (hook s) = true ->
  match result_of (invoke options a s) with
  | Ok r =>
      exists before after,
        events_of (invoke options a s)
        = before ++ EvSetTxState (TxSuccess (tr_hash r)) :: after /\
        existsb isRefreshEvent after = true /\
        txWrites after = [] /\
        txState (hook (state_of (invoke options a s))) = TxSuccess (tr_hash r)
  | Throw t =>
      existsb isRefreshEvent (events_of (invoke options a s)) = false /\
      exists e, txState (hook (state_of (invoke options a s))) = TxError e
  end.
Proof.
  intros G.
  destruct (invoke_guarded W options a s G) as (pc & wc & _ & _ & ->).
  pose proof (libCall_libOnly W options pc wc (status (hook s)) a (chain s)) as Hlib.
  destruct (libCall options pc wc (status (hook s)) a (chain s)) as [[[r|t] w1] evs0] eqn:E;
    unfold events_of in Hlib; cbn [snd] in Hlib.
  - destruct (trackTransaction_ok W options (fallbackMessage a) _ s r w1 evs0 E Hlib)
      as (s' & evsR & -> & Hw & Href & Hst).
    unfold events_of, state_of, result_of. cbn [fst snd].
    exists (EvSetTxState (TxPending None) :: EvSetError None :: evs0), evsR.
    repeat split; auto.
  - rewrite (trackTransaction_throw W options (fallbackMessage a) _ s t w1 evs0 E).
    unfold events_of, state_of, result_of. cbn [fst snd hook txState]. split.
    + cbn [existsb isRefreshEvent orb]. rewrite existsb_app.
      rewrite (libOnly_no_refresh evs0 Hlib). reflexivity.
    + eexists. reflexivity.
Qed.

(** C7, as the code has it: without a signer every write action fails with
    the not-connected error and reaches the chain in no way.  When the
    wallet client itself is missing nothing is written to the hook's state;
    when only its account is missing and the guard of the hook passes, the
    tracker has gone to [pending] and settles in [error]. *)
Theorem missing_signer_fails_before_network options a s :
  signerAbsent options = true ->
  existsb isChainEvent (events_of (invoke options a s)) = false /\
  chain (state_of (invoke options a s)) = chain s /\
  (exists e, result_of (invoke options a s) = Throw (ThrownError e) /\
             isNotConnected e = true) /\
  (walletClient options = None ->
   events_of (invoke options a s) = [] /\ state_of (invoke options a s) = s) /\
  (guardPasses options a (hook s) = true ->
   txWrites (events_of (invoke options a s))
   = [TxPending None; TxError (mkError "Wallet not connected")]).
Proof.
  intros Habs.
  destruct (guardPasses options a (hook s)) eqn:G.
  - destruct (invoke_guarded W options a s G) as (pc & wc & _ & Ewc & ->).
    unfold signerAbsent in Habs. rewrite Ewc in Habs.
    destruct (wc_account wc) eqn:Eacc; [discriminate|].
    rewrite (trackTransaction_throw W options (fallbackMessage a) _ s _ _ _
               (libCall_no_account W options pc wc (status (hook s)) a (chain s) Eacc)).
    unfold events_of, state_of, result_of. cbn.
    repeat split; try congruence.
    eexists. split; reflexivity.
  - rewrite (invoke_unguarded W options a s G).
    unfold events_of, state_of, result_of. cbn [fst snd existsb].
    repeat split; try discriminate.
    eexists. split; [reflexivity|]. destruct a; reflexivity.
Qed.

(** C9: every action other than [register], invoked while the cached
    status holds no agent identifier, fails with the not-registered error
    and does nothing else: no write to the transaction state, no call to
    the chain. *)
Theorem unregistered_action_rejected options a s :
  isRegister a = false ->
  truthy (knownAgentId (status (hook s))) = false ->
  invoke options a s
  = (Throw (ThrownError (mkError "Agent not registered or wallet not connected")), s, []).
Proof.
  intros Ha Hid.
  assert (G : guardPasses options a (hook s) = false).
  { unfold guardPasses. destruct (publicClient options); [|reflexivity].
    destruct (walletClient options); [|reflexivity].
    destruct a; try discriminate Ha; exact Hid. }
  rewrite (invoke_unguarded W options a s G).
  destruct a; try discriminate Ha; reflexivity.
Qed.

(** C8: when the receipt of a registration holds no log whose first topic
    matches the expected one, [register] returns normally a result with the
    transaction hash and no [agentId], and the tracker ends in
    [success]. *)
Theorem register_without_event_succeeds options md stake s pc wc account h w1 rc w2 :
  publicClient options = Some pc ->
  walletClient options = Some wc ->
  wc_account wc = Some account ->
  resolveRegistry (registryAddress options) (network options) <> NULL_ADDRESS ->
  wc_writeContract wc
    (registerAgent_call (resolveRegistry (registryAddress options) (network options))
       md stake account) (chain s) = (Ok h, w1) ->
  pc_waitForTransactionReceipt pc h w1 = (Ok rc, w2) ->
  (forall log, In log (logs rc) -> isRegisteredEvent log = false) ->
  result_of (register options md stake s) = Ok {| tr_hash := h; tr_agentId := None |} /\
  txState (hook (state_of (register options md stake s))) = TxSuccess h.
Proof.
  intros Epc Ewc Hacc Hreg Hwrite Hwait Hlogs.
  pose proof (registerAgent_success W pc wc (network options) md stake
                (registryAddress options) (chain s) account h w1 rc w2
                Hacc Hreg Hwrite Hwait) as E.
  rewrite (find_no_match _ _ Hlogs) in E. cbn [eventAgentId] in E.
  unfold register. rewrite Epc, Ewc.
  destruct (trackTransaction_ok W options "Registration failed" _ s _ _ _ E)
    as (s' & evsR & -> & _ & _ & Hst).
  { apply libOnly_decide. reflexivity. }
  unfold result_of, state_of. cbn [fst snd]. split; [reflexivity | exact Hst].
Qed.

End FacadeClaims.

(** ** The claims on concrete clients *)

Lemma checkRegistration_absorbs_faults_witness :
  In (EvReadContract (getAgentByOwner_call Demo.registry Demo.owner)
        (Throw Demo.transportFault))
     (events_of (checkRegistration (Demo.failingFrom 1) arbitrum_sepolia Demo.owner None 0)) /\
  result_of (checkRegistration (Demo.failingFrom 1) arbitrum_sepolia Demo.owner None 0)
  = Ok notRegistered.
Proof.
  assert (H : In (EvReadContract (getAgentByOwner_call Demo.registry Demo.owner)
                    (Throw Demo.transportFault))
                 (events_of (checkRegistration (Demo.failingFrom 1) arbitrum_sepolia
                               Demo.owner None 0))).
  { vm_compute. right. left. reflexivity. }
  split; [exact H|].
  exact (proj2 (checkRegistration_absorbs_faults nat (Demo.failingFrom 1)
                  arbitrum_sepolia Demo.owner None 0) _ _ H).
Defined.

Lemma demo_fetches (agentData : value) (n : nat) :
  fetchesAgent (Demo.publicClientWith agentData) Demo.registry Demo.owner n
    (JString Demo.agentId) agentData.
Proof.
  exists (JBool true), (S n), (S (S n)), (S (S (S n))). repeat split.
Qed.

Lemma normalizer_shapes_agree_witness :
  result_of (checkRegistration (Demo.publicClientWith Demo.structRecord)
               arbitrum_sepolia Demo.owner None 0)
  = result_of (checkRegistration (Demo.publicClientWith Demo.tupleRecord)
                 arbitrum_sepolia Demo.owner None 7) /\
  result_of (checkRegistration (Demo.publicClientWith (JString "0x"))
               arbitrum_sepolia Demo.owner None 0)
  = Ok notRegistered.
Proof.
  assert (Hreg : resolveRegistry None arbitrum_sepolia <> NULL_ADDRESS) by discriminate.
  destruct (normalizer_shapes_agree nat (Demo.publicClientWith Demo.structRecord)
              (Demo.publicClientWith Demo.tupleRecord) arbitrum_sepolia Demo.owner None
              0 7 (JString Demo.agentId) Hreg) as [Hshape _].
  destruct (normalizer_shapes_agree nat (Demo.publicClientWith (JString "0x"))
              (Demo.publicClientWith (JString "0x")) arbitrum_sepolia Demo.owner None
              0 0 (JString Demo.agentId) Hreg) as [_ Hneither].
  split.
  - exact (proj1 (Hshape Demo.structProps [JString "text-generation"] eq_refl eq_refl
                    (demo_fetches Demo.structRecord 0) (demo_fetches Demo.tupleRecord 7))).
  - exact (Hneither (JString "0x") eq_refl eq_refl (demo_fetches (JString "0x") 0)).
Defined.

Lemma stake_readers_agree_witness :
  result_of (getAgentStake (Demo.publicClientWith Demo.tupleRecord) arbitrum_sepolia
               (JString Demo.agentId) None 0)
  = Ok (JBigInt 10000000000000000) /\
  result_of (getAgentStake (Demo.publicClientWith JNull) arbitrum_sepolia
               (JString Demo.agentId) None 0)
  = Ok (JBigInt 0).
Proof.
  split.
  - exact (proj1 (stake_readers_agree nat (Demo.publicClientWith Demo.tupleRecord)
                    arbitrum_sepolia (JString Demo.agentId) None 0 Demo.tupleRecord 1
                    eq_refl)
             (JString Demo.agentId) Demo.registeredInfo eq_refl (or_intror eq_refl)).
  - exact (proj2 (stake_readers_agree nat (Demo.publicClientWith JNull)
                    arbitrum_sepolia (JString Demo.agentId) None 0 JNull 1 eq_refl)
             eq_refl eq_refl).
Defined.

Lemma demo_receipt_hashed :
  forall log t, In log (logs Demo.receipt) -> In t (topics log) -> isHash32 t = true.
Proof.
  intros log t [<- | []] [<- | [<- | []]]; reflexivity.
Qed.

Lemma expected_topic_never_matches_witness :
  result_of (registerAgent (Demo.publicClientWith Demo.structRecord) Demo.wallet
               arbitrum_sepolia Demo.metadata None None 0)
  = Ok {| tr_hash := Demo.txHash; tr_agentId := None |}.
Proof.
  refine (proj2 (proj2 (expected_topic_never_matches nat
            (Demo.publicClientWith Demo.structRecord) Demo.wallet arbitrum_sepolia
            Demo.metadata None None 0 Demo.owner Demo.txHash 1 Demo.receipt 2
            eq_refl _ eq_refl eq_refl demo_receipt_hashed))).
  discriminate.
Defined.

(** C4 at the failing input: on the network whose registry is the null
    sentinel, with no override, [updateAgentCapabilities] submits the call
    to the null address, waits for the receipt and returns normally. *)
Theorem null_registry_write_is_submitted :
  REGISTRY_CONTRACTS arbitrum = NULL_ADDRESS /\
  Runs.updateOnNullRegistry
  = (Ok {| tr_hash := Demo.txHash; tr_agentId := None |}, 2,
     [EvWriteContract
        {| wr_address := NULL_ADDRESS; wr_functionName := "updateCapabilities";
           wr_args := [JString Demo.agentId; JArray [JString "text-generation"]];
           wr_value := None; wr_account := Demo.owner |} (Ok Demo.txHash);
      EvWaitForReceipt Demo.txHash (Ok Demo.receipt)]) /\
  result_of Runs.updateOnNullRegistryViaHook
  = Ok {| tr_hash := Demo.txHash; tr_agentId := None |} /\
  events_of Runs.updateOnNullRegistryViaHook
  = [EvSetTxState (TxPending None); EvSetError None;
     EvWriteContract
       {| wr_address := NULL_ADDRESS; wr_functionName := "updateCapabilities";
          wr_args := [JString Demo.agentId; JArray [JString "text-generation"]];
          wr_value := None; wr_account := Demo.owner |} (Ok Demo.txHash);
     EvWaitForReceipt Demo.txHash (Ok Demo.receipt);
     EvSetTxState (TxSuccess Demo.txHash);
     EvSetIsLoading true; EvSetError None;
     EvSetStatus (Some notRegistered); EvSetIsLoading false].
Proof. repeat split. Qed.

(** C6 fails after an error: a registration the wallet rejects settles in
    [error] and is followed by no refresh (no read of the chain, no write
    to the cached status). *)
Lemma no_refresh_after_error :
  events_of Runs.rejectedRegistration
  = [EvSetTxState (TxPending None); EvSetError None;
     EvWriteContract
       (registerAgent_call Demo.registry Demo.metadata None Demo.owner)
       (Throw (ThrownError (mkError "User rejected the request")));
     EvSetTxState (TxError (mkError "User rejected the request"));
     EvSetError (Some (mkError "User rejected the request"))] /\
  txState (hook (state_of Runs.rejectedRegistration))
  = TxError (mkError "User rejected the request") /\
  existsb isRefreshEvent (events_of Runs.rejectedRegistration) = false.
Proof. repeat split. Qed.

Lemma refresh_follows_success_witness :
  guardPasses Runs.flakyOptions (Register Demo.metadata None) (hook Demo.fresh) = true /\
  txState (hook (state_of Runs.registrationWithFailedRefresh)) = TxSuccess Demo.txHash.
Proof.
  split; [reflexivity|].
  pose proof (refresh_follows_success nat Runs.flakyOptions (Register Demo.metadata None)
                Demo.fresh eq_refl) as H.
  change (invoke Runs.flakyOptions (Register Demo.metadata None) Demo.fresh)
    with Runs.registrationWithFailedRefresh in H.
  change (result_of Runs.registrationWithFailedRefresh)
    with (Ok (A := TransactionResult) {| tr_hash := Demo.txHash; tr_agentId := None |}) in H.
  destruct H as (before & after & _ & _ & _ & Hst). exact Hst.
Defined.

(** C7 fails when only the account is missing: the guard of the hook
    passes, the tracker goes to [pending], and the error raised by
    [registerAgent] then settles it in [error]. *)
Lemma pending_before_missing_account_error :
  signerAbsent Runs.accountlessOptions = true /\
  result_of Runs.accountlessRegistration
  = Throw (ThrownError (mkError "Wallet not connected")) /\
  txWrites (events_of Runs.accountlessRegistration)
  = [TxPending None; TxError (mkError "Wallet not connected")].
Proof. repeat split. Qed.

Lemma missing_signer_fails_before_network_witness :
  existsb isChainEvent (events_of Runs.accountlessRegistration) = false /\
  events_of (invoke (Demo.optionsWith (Some (Demo.publicClientWith Demo.structRecord))
                       None arbitrum_sepolia) Deactivate Demo.registered) = [].
Proof.
  split.
  - exact (proj1 (missing_signer_fails_before_network nat Runs.accountlessOptions
                    (Register Demo.metadata None) Demo.fresh eq_refl)).
  - exact (proj1 (proj1 (proj2 (proj2 (proj2
             (missing_signer_fails_before_network nat
                (Demo.optionsWith (Some (Demo.publicClientWith Demo.structRecord))
                   None arbitrum_sepolia) Deactivate Demo.registered eq_refl)))) eq_refl)).
Defined.

Lemma unregistered_action_rejected_witness :
  invoke (Demo.optionsWith (Some (Demo.publicClientWith Demo.structRecord))
            (Some Demo.wallet) arbitrum_sepolia) (AddStake 5) Demo.fresh
  = (Throw (ThrownError (mkError "Agent not registered or wallet not connected")),
     Demo.fresh, []).
Proof.
  exact (unregistered_action_rejected nat
           (Demo.optionsWith (Some (Demo.publicClientWith Demo.structRecord))
              (Some Demo.wallet) arbitrum_sepolia) (AddStake 5) Demo.fresh
           eq_refl eq_refl).
Defined.

Lemma demo_receipt_unmatched :
  forall log, In log (logs Demo.receipt) -> isRegisteredEvent log = false.
Proof. intros log [<- | []]. reflexivity. Qed.

Lemma register_without_event_succeeds_witness :
  result_of (register (Demo.optionsWith (Some (Demo.publicClientWith Demo.structRecord))
                         (Some Demo.wallet) arbitrum_sepolia) Demo.metadata None Demo.fresh)
  = Ok {| tr_hash := Demo.txHash; tr_agentId := None |} /\
  txState (hook (state_of
    (register (Demo.optionsWith (Some (Demo.publicClientWith Demo.structRecord))
                 (Some Demo.wallet) arbitrum_sepolia) Demo.metadata None Demo.fresh)))
  = TxSuccess Demo.txHash.
Proof.
  refine (register_without_event_succeeds nat
            (Demo.optionsWith (Some (Demo.publicClientWith Demo.structRecord))
               (Some Demo.wallet) arbitrum_sepolia) Demo.metadata None Demo.fresh
            (Demo.publicClientWith Demo.structRecord) Demo.wallet Demo.owner Demo.txHash
            1 Demo.receipt 2 eq_refl eq_refl eq_refl _ eq_refl eq_refl
            demo_receipt_unmatched).
  discriminate.
Defined.

(** * Further properties of the code *)

(** ** registry.ts: the read path *)

Section ReadPathMore.

Variable W : Type.
Implicit Types (pc : PublicClient W) (w : W).

Ltac close_run :=
  unfold result_of, events_of, state_of; cbn [fst snd].

(** X1: the status [checkRegistration] returns is well formed: either
    [{isRegistered: false}] with no record, or [isRegistered: true] with a
    record whose [agentId] is the very value the contract returned for the
    owner in this run. *)
Theorem checkRegistration_status_consistent pc net owner ra w :
  exists st,
    result_of (checkRegistration pc net owner ra w) = Ok st /\
    (st = notRegistered \/
     exists info,
       st = {| isRegistered := true; agentInfo := Some info |} /\
       In (EvReadContract (getAgentByOwner_call (resolveRegistry ra net) owner)
             (Ok (info_agentId info)))
          (events_of (checkRegistration pc net owner ra w))).
Proof.
  unfold checkRegistration.
  destruct (resolveRegistry ra net =? _).
  { exists notRegistered. split; [reflexivity | now left]. }
  run_monad.
  next_read; cbn; [|eexists; split; [reflexivity | now left]].
  destruct (truthy v); cbn; [|eexists; split; [reflexivity | now left]].
  next_read; cbn; [|eexists; split; [reflexivity | now left]].
  next_read; cbn; [|eexists; split; [reflexivity | now left]].
  destruct (normalizeAgentData v0 v1) as [[info|]|t] eqn:E; cbn;
    try (eexists; split; [reflexivity | now left]).
  eexists. split; [reflexivity|]. right. exists info. split; [reflexivity|].
  assert (Hid : info_agentId info = v0).
  { unfold normalizeAgentData in E.
    destruct (isStruct v1).
    - destruct (iterate (get "capabilities" v1)); [|discriminate].
      now injection E as <-.
    - destruct (isArray v1); [|discriminate]. now injection E as <-. }
  rewrite Hid. right. left. reflexivity.
Qed.

(** X2: [checkRegistration] only reads: it makes at most three calls to
    the chain, every one of them a read of the resolved registry contract,
    and apart from them it only writes to the console. *)
Theorem checkRegistration_reads_only pc net owner ra w :
  forallb (isReadOf (resolveRegistry ra net))
    (events_of (checkRegistration pc net owner ra w)) = true /\
  chainCalls (events_of (checkRegistration pc net owner ra w)) <= 3.
Proof.
  unfold checkRegistration.
  destruct (resolveRegistry ra net =? _) eqn:Ereg.
  { split; [reflexivity | cbn; lia]. }
  run_monad.
  assert (Hself : (resolveRegistry ra net =? resolveRegistry ra net) = true)
    by apply String.eqb_refl.
  next_read; cbn; rewrite ?Hself; [|split; [reflexivity | cbn; lia]].
  destruct (truthy v); cbn; rewrite ?Hself; [|split; [reflexivity | cbn; lia]].
  next_read; cbn; rewrite ?Hself; [|split; [reflexivity | cbn; lia]].
  next_read; cbn; rewrite ?Hself; [|split; [reflexivity | cbn; lia]].
  destruct (normalizeAgentData v0 v1) as [[info|]|t]; cbn; rewrite ?Hself;
    (split; [reflexivity | cbn; lia]).
Qed.

(** X3: when the registration predicate answers with a falsy value the
    owner is reported as not registered after that single read: the
    identifier and the record are not queried. *)
Theorem checkRegistration_unregistered pc net owner ra w isReg w1 :
  resolveRegistry ra net <> NULL_ADDRESS ->
  pc_readContract pc (isAgentRegistered_call (resolveRegistry ra net) owner) w
  = (Ok isReg, w1) ->
  truthy isReg = false ->
  checkRegistration pc net owner ra w
  = (Ok notRegistered, w1,
     [EvReadContract (isAgentRegistered_call (resolveRegistry ra net) owner) (Ok isReg)]).
Proof.
  intros Hreg Hread Hfalsy. unfold checkRegistration.
  destruct (String.eqb_spec (resolveRegistry ra net)
              "0x0000000000000000000000000000000000000000") as [E|_]; [contradiction|].
  run_monad. rewrite Hread. cbn. rewrite Hfalsy. reflexivity.
Qed.

(** X4: the two shapes are not treated alike on a malformed record.  A
    structured record whose [capabilities] cannot be iterated (say, the
    field is missing) makes the spread throw, and the owner is reported as
    not registered; a positional record is never rejected, whatever its
    length: the positions it lacks read as [undefined]. *)
Theorem malformed_records pc net owner ra w agentId :
  resolveRegistry ra net <> NULL_ADDRESS ->
  (forall agentData,
      isStruct agentData = true ->
      iterate (get "capabilities" agentData) = None ->
      fetchesAgent pc (resolveRegistry ra net) owner w agentId agentData ->
      result_of (checkRegistration pc net owner ra w) = Ok notRegistered) /\
  (forall items,
      fetchesAgent pc (resolveRegistry ra net) owner w agentId (JArray items) ->
      result_of (checkRegistration pc net owner ra w)
      = Ok {| isRegistered := true;
              agentInfo := Some
                {| info_agentId := agentId;
                   info_owner := nth 0 items JUndefined;
                   info_name := nth 1 items JUndefined;
                   info_version := nth 2 items JUndefined;
                   info_capabilities := nth 3 items JUndefined;
                   info_stake := nth 4 items JUndefined;
                   info_reputation := nth 5 items JUndefined;
                   info_isActive := nth 6 items JUndefined;
                   info_registeredAt := nth 7 items JUndefined |} |}).
Proof.
  intros Hreg. split.
  - intros agentData Hs Hit Hf.
    rewrite (checkRegistration_normalizes W pc net owner ra w _ _ Hreg Hf).
    unfold normalizeAgentData. rewrite Hs, Hit. reflexivity.
  - intros items Hf.
    rewrite (checkRegistration_normalizes W pc net owner ra w _ _ Hreg Hf).
    unfold normalizeAgentData. rewrite isStruct_array. reflexivity.
Qed.

(** Unlike [checkRegistration], [getAgentStake] neither tests the
    null sentinel nor catches anything: it makes exactly one read, at
    whatever address resolves, and a fault of that read is thrown to the
    caller as it is. *)
Lemma getAgentStake_propagates_faults pc net agentId ra w :
  exists res w',
    pc_readContract pc (getAgent_call (resolveRegistry ra net) agentId) w = (res, w') /\
    events_of (getAgentStake pc net agentId ra w)
    = [EvReadContract (getAgent_call (resolveRegistry ra net) agentId) res] /\
    state_of (getAgentStake pc net agentId ra w) = w' /\
    (forall t, res = Throw t -> result_of (getAgentStake pc net agentId ra w) = Throw t) /\
    (forall agentData, res = Ok agentData ->
       result_of (getAgentStake pc net agentId ra w) = Ok (extractStake agentData)).
Proof.
  unfold getAgentStake. run_monad.
  destruct (pc_readContract pc _ w) as [[v|t] w'] eqn:E;
    [exists (Ok v), w' | exists (Throw t), w'];
    (split; [reflexivity|]); close_run; repeat split;
    intros ? [= <-]; reflexivity.
Qed.

End ReadPathMore.

(** ** registry.ts: the write path *)

Section WritePathMore.

Variable W : Type.
Implicit Types (pc : PublicClient W) (wc : WalletClient W) (w : W)
  (options : UseAgentRegistryOptions W).

Ltac close_run :=
  unfold result_of, events_of, state_of; cbn [fst snd].

Ltac open_lib a Hacc :=
  destruct a; cbn [libCall isRegister attachedValue];
  unfold registerAgent, updateAgentCapabilities, addAgentStake, withdrawAgentStake,
    deactivateAgent, reactivateAgent;
  rewrite Hacc.

Lemma deployed_eqb (registry : Address) :
  registry <> NULL_ADDRESS ->
  (registry =? "0x0000000000000000000000000000000000000000") = false.
Proof.
  intros H. now destruct (String.eqb_spec registry
                           "0x0000000000000000000000000000000000000000").
Qed.

(** X5: with an account, and for [registerAgent] a deployed registry, each
    of the six functions of the write path starts by submitting one call;
    the call goes to the resolved registry, is made from the wallet's
    account, and carries a value only for [registerAgent] (the stake, or
    zero) and [addAgentStake] (the amount).  No function makes more than
    two calls to the chain. *)
Theorem write_path_submission options pc wc st a w account :
  wc_account wc = Some account ->
  isRegister a = false
  \/ resolveRegistry (registryAddress options) (network options) <> NULL_ADDRESS ->
  exists req res rest,
    events_of (libCall options pc wc st a w) = EvWriteContract req res :: rest /\
    wr_address req = resolveRegistry (registryAddress options) (network options) /\
    wr_account req = account /\
    wr_value req = attachedValue a /\
    chainCalls (events_of (libCall options pc wc st a w)) <= 2.
Proof.
  intros Hacc Hdep.
  open_lib a Hacc;
    try (destruct Hdep as [Hdep | Hdep]; [discriminate Hdep | rewrite (deployed_eqb _ Hdep)]);
    run_monad;
    repeat (first [ next_call | progress cbn ]);
    (eexists _, _, _; split; [close_run; reflexivity|]);
    repeat split; cbn; lia.
Qed.




Lemma find_first_match {A} (f : A -> bool) (before : list A) (x : A) (after : list A) :
  (forall y, In y before -> f y = false) -> f x = true ->
  find f (before ++ x :: after) = Some x.
Proof.
  induction before as [|y before IH]; intros Hb Hx; cbn.
  - now rewrite Hx.
  - rewrite (Hb y (or_introl eq_refl)). apply IH; [|exact Hx].
    intros z Hz. apply Hb. now right.
Qed.

(** X9: when the receipt of a registration has logs whose first topic,
    lower-cased, equals the expected topic, the [agentId] of the result is
    the second topic of the first such log (and is undefined when that log
    has a single topic). *)
Theorem registerAgent_reads_first_matching_log
    pc wc net md stake ra w account h w1 rc w2 before log after :
  wc_account wc = Some account ->
  resolveRegistry ra net <> NULL_ADDRESS ->
  wc_writeContract wc (registerAgent_call (resolveRegistry ra net) md stake account) w
  = (Ok h, w1) ->
  pc_waitForTransactionReceipt pc h w1 = (Ok rc, w2) ->
  logs rc = before ++ log :: after ->
  (forall l, In l before -> isRegisteredEvent l = false) ->
  isRegisteredEvent log = true ->
  result_of (registerAgent pc wc net md stake ra w)
  = Ok {| tr_hash := h; tr_agentId := nth_error (topics log) 1 |}.
Proof.
  intros Hacc Hreg Hwrite Hwait Hlogs Hbefore Hlog.
  rewrite (registerAgent_success W pc wc net md stake ra w account h w1 rc w2
             Hacc Hreg Hwrite Hwait).
  close_run. rewrite Hlogs, (find_first_match _ _ _ _ Hbefore Hlog). reflexivity.
Qed.

End WritePathMore.

(** ** useAgentRegistry.ts: the refresh and the cells of the hook *)

Section HookMore.

Variable W : Type.
Implicit Types (pc : PublicClient W) (wc : WalletClient W)
  (options : UseAgentRegistryOptions W) (s : Store W) (a : WriteAction).

Ltac close_run :=
  unfold result_of, events_of, state_of; cbn [fst snd].

Ltac run_hook :=
  unfold try_catch, try_finally, bind, emit, ret, throw, lift, withStatus,
    setStatus, setIsLoading, setError, setTxState, update.

(** X10: without a public client, or without an owner address (missing or
    empty), a refresh only resets the cached status to [null]: it makes no
    call to the chain and leaves the loading flag and the error alone. *)
Theorem fetchStatus_without_inputs options s :
  publicClient options = None \/ present (userAddress options) = None ->
  fetchStatus options s
  = (Ok tt,
     {| chain := chain s;
        hook := {| status := None; isLoading := isLoading (hook s);
                   error := error (hook s); txState := txState (hook s) |} |},
     [EvSetStatus None]).
Proof.
  intros H. unfold fetchStatus.
  destruct (publicClient options) as [pc|].
  - destruct H as [H | H]; [discriminate | rewrite H]. reflexivity.
  - reflexivity.
Qed.

Lemma fetchStatus_runs options s pc owner st w' evs :
  publicClient options = Some pc ->
  present (userAddress options) = Some owner ->
  checkRegistration pc (network options) owner (registryAddress options) (chain s)
  = (Ok st, w', evs) ->
  fetchStatus options s
  = (Ok tt,
     {| chain := w';
        hook := {| status := Some st; isLoading := false; error := None;
                   txState := txState (hook s) |} |},
     EvSetIsLoading true :: EvSetError None :: evs
       ++ [EvSetStatus (Some st); EvSetIsLoading false]).
Proof.
  intros Hpc Hown E. unfold fetchStatus. rewrite Hpc, Hown.
  run_hook. cbn [chain hook status isLoading error txState]. rewrite E. cbn.
  rewrite <- app_assoc. reflexivity.
Qed.

(** X11: with a public client and an owner address, a refresh stores the
    status [checkRegistration] returns, whatever the chain client did, and
    ends with the loading flag down and the error cell empty: a transport
    fault shows as "not registered", never as an error of the hook. *)
Theorem fetchStatus_stores_status options s pc owner :
  publicClient options = Some pc ->
  present (userAddress options) = Some owner ->
  exists st,
    result_of (checkRegistration pc (network options) owner (registryAddress options)
                 (chain s)) = Ok st /\
    result_of (fetchStatus options s) = Ok tt /\
    hook (state_of (fetchStatus options s))
    = {| status := Some st; isLoading := false; error := None;
         txState := txState (hook s) |} /\
    chain (state_of (fetchStatus options s))
    = state_of (checkRegistration pc (network options) owner (registryAddress options)
                  (chain s)).
Proof.
  intros Hpc Hown.
  destruct (checkRegistration_total W pc (network options) owner
              (registryAddress options) (chain s)) as (st & w' & evs & E & _ & _).
  exists st. rewrite (fetchStatus_runs options s pc owner st w' evs Hpc Hown E), E.
  close_run. repeat split.
Qed.

(** X12: an action whose guard passed and that fails leaves one and the
    same [Error] in three places: it is what the call throws, what the
    transaction state carries, and what the error cell holds.  The cached
    status and the loading flag are as they were. *)
Theorem failed_action_records_error options a s t :
  guardPasses options a (hook s) = true ->
  result_of (invoke options a s) = Throw t ->
  exists e,
    t = ThrownError e /\
    hook (state_of (invoke options a s))
    = {| status := status (hook s); isLoading := isLoading (hook s);
         error := Some e; txState := TxError e |}.
Proof.
  intros G.
  destruct (invoke_guarded W options a s G) as (pc & wc & _ & _ & ->).
  pose proof (libCall_libOnly W options pc wc (status (hook s)) a (chain s)) as Hlib.
  destruct (libCall options pc wc (status (hook s)) a (chain s)) as [[[r|t0] w1] evs0] eqn:E;
    unfold events_of in Hlib; cbn [snd] in Hlib.
  - destruct (trackTransaction_ok W options (fallbackMessage a) _ s r w1 evs0 E Hlib)
      as (s' & evsR & -> & _). close_run. discriminate.
  - rewrite (trackTransaction_throw W options (fallbackMessage a) _ s t0 w1 evs0 E).
    close_run. intros [= <-]. eexists. split; reflexivity.
Qed.

(** X13: what the caller of a failing action receives is always an
    [Error]: an [Error] thrown below comes through unchanged, any other
    thrown value is replaced by an [Error] with the message of the
    action. *)
Theorem failed_action_error_message options a s pc wc :
  publicClient options = Some pc ->
  walletClient options = Some wc ->
  guardPasses options a (hook s) = true ->
  (forall e,
      result_of (libCall options pc wc (status (hook s)) a (chain s))
      = Throw (ThrownError e) ->
      result_of (invoke options a s) = Throw (ThrownError e)) /\
  (forall v,
      result_of (libCall options pc wc (status (hook s)) a (chain s))
      = Throw (ThrownValue v) ->
      result_of (invoke options a s)
      = Throw (ThrownError (mkError (fallbackMessage a)))).
Proof.
  intros Hpc Hwc G.
  destruct (invoke_guarded W options a s G) as (pc' & wc' & Hpc' & Hwc' & ->).
  assert (pc' = pc) by congruence. assert (wc' = wc) by congruence. subst pc' wc'.
  destruct (libCall options pc wc (status (hook s)) a (chain s)) as [[[r|t0] w1] evs0] eqn:E;
    close_run; split; intros x Hx; try discriminate Hx;
    injection Hx as ->;
    rewrite (trackTransaction_throw W options (fallbackMessage a) _ s _ w1 evs0 E);
    reflexivity.
Qed.

Lemma invoke_success_state options a s pc wc owner r w1 evs0 :
  publicClient options = Some pc ->
  walletClient options = Some wc ->
  guardPasses options a (hook s) = true ->
  present (userAddress options) = Some owner ->
  libCall options pc wc (status (hook s)) a (chain s) = (Ok r, w1, evs0) ->
  exists st,
    result_of (checkRegistration pc (network options) owner (registryAddress options) w1)
    = Ok st /\
    result_of (invoke options a s) = Ok r /\
    hook (state_of (invoke options a s))
    = {| status := Some st; isLoading := false; error := None;
         txState := TxSuccess (tr_hash r) |}.
Proof.
  intros Hpc Hwc G Hown E.
  destruct (invoke_guarded W options a s G) as (pc' & wc' & Hpc' & Hwc' & ->).
  assert (pc' = pc) by congruence. assert (wc' = wc) by congruence. subst pc' wc'.
  destruct (checkRegistration_total W pc (network options) owner
              (registryAddress options) w1) as (st & w' & evs & Echeck & _ & _).
  exists st. rewrite Echeck. split; [reflexivity|].
  unfold trackTransaction. run_hook.
  cbn [chain hook status isLoading error txState]. rewrite E.
  cbn [chain hook status isLoading error txState].
  match goal with
  | |- context [fetchStatus options ?s1] =>
      rewrite (fetchStatus_runs options s1 pc owner st w' evs Hpc Hown Echeck)
  end.
  close_run. split; reflexivity.
Qed.

(** X14: after an action that succeeds, with an owner address set, the
    hook holds the status read from the chain as it is after the
    transaction, the loading flag is down, the error cell is empty and the
    transaction state is [success] with the hash of the result. *)
Theorem successful_action_refreshes_cache options a s pc wc owner r w1 evs0 :
  publicClient options = Some pc ->
  walletClient options = Some wc ->
  guardPasses options a (hook s) = true ->
  present (userAddress options) = Some owner ->
  libCall options pc wc (status (hook s)) a (chain s) = (Ok r, w1, evs0) ->
  exists st,
    result_of (checkRegistration pc (network options) owner (registryAddress options) w1)
    = Ok st /\
    result_of (invoke options a s) = Ok r /\
    hook (state_of (invoke options a s))
    = {| status := Some st; isLoading := false; error := None;
         txState := TxSuccess (tr_hash r) |}.
Proof. exact (invoke_success_state options a s pc wc owner r w1 evs0). Qed.

(** X15: through the hook a registration on a network whose registry is
    the null sentinel does pass the guard: the tracker goes to [pending],
    [registerAgent] refuses before any call to the chain, and the tracker
    settles in [error] with the message of the refusal. *)
Theorem register_on_null_registry options md stake s pc wc account :
  publicClient options = Some pc ->
  walletClient options = Some wc ->
  wc_account wc = Some account ->
  resolveRegistry (registryAddress options) (network options) = NULL_ADDRESS ->
  invoke options (Register md stake) s
  = (Throw (ThrownError (mkError "Registry contract not deployed on this network")),
     {| chain := chain s;
        hook := {| status := status (hook s); isLoading := isLoading (hook s);
                   error := Some (mkError "Registry contract not deployed on this network");
                   txState :=
                     TxError (mkError "Registry contract not deployed on this network") |} |},
     [EvSetTxState (TxPending None); EvSetError None;
      EvSetTxState (TxError (mkError "Registry contract not deployed on this network"));
      EvSetError (Some (mkError "Registry contract not deployed on this network"))]).
Proof.
  intros Hpc Hwc Hacc Hreg. cbn [invoke]. unfold register. rewrite Hpc, Hwc.
  rewrite (trackTransaction_throw W options "Registration failed" _ s _ _ _
             (registerAgent_null_registry W pc wc (network options) md stake
                (registryAddress options) (chain s) account Hacc Hreg)).
  reflexivity.
Qed.

(** X16: registration composes with the other actions: after a
    registration that succeeds and whose refresh reads an agent record with
    a truthy identifier, the cached identifier is the one read and the
    guard of every action passes. *)
Theorem registration_enables_actions
    options md stake s pc wc owner r w1 evs0 agentId agentData info :
  publicClient options = Some pc ->
  walletClient options = Some wc ->
  present (userAddress options) = Some owner ->
  resolveRegistry (registryAddress options) (network options) <> NULL_ADDRESS ->
  registerAgent pc wc (network options) md stake (registryAddress options) (chain s)
  = (Ok r, w1, evs0) ->
  fetchesAgent pc (resolveRegistry (registryAddress options) (network options))
    owner w1 agentId agentData ->
  normalizeAgentData agentId agentData = Ok (Parsed info) ->
  truthy agentId = true ->
  knownAgentId (status (hook (state_of (invoke options (Register md stake) s)))) = agentId /\
  forall a, guardPasses options a (hook (state_of (invoke options (Register md stake) s)))
            = true.
Proof.
  intros Hpc Hwc Hown Hreg E Hf Hnorm Hid.
  assert (G : guardPasses options (Register md stake) (hook s) = true).
  { unfold guardPasses. now rewrite Hpc, Hwc. }
  destruct (invoke_success_state options (Register md stake) s pc wc owner
              r w1 evs0 Hpc Hwc G Hown E) as (st & Hst & _ & Hhook).
  rewrite (checkRegistration_normalizes W pc (network options) owner
             (registryAddress options) w1 agentId agentData Hreg Hf), Hnorm in Hst.
  cbn [statusOf] in Hst. injection Hst as <-.
  rewrite Hhook. cbn [status knownAgentId agentInfo].
  assert (Hinfo : info_agentId info = agentId).
  { unfold normalizeAgentData in Hnorm.
    destruct (isStruct agentData).
    - destruct (iterate (get "capabilities" agentData)); [|discriminate].
      now injection Hnorm as <-.
    - destruct (isArray agentData); [|discriminate]. now injection Hnorm as <-. }
  split; [exact Hinfo|].
  intros a. unfold guardPasses. rewrite Hpc, Hwc. cbn [status knownAgentId agentInfo].
  rewrite Hinfo. destruct a; auto.
Qed.

End HookMore.

(** ** link-service.ts and useTelegramLink.ts *)

Section LinkProps.

Lemma append_inj_l (p a b : string) : (p ++ a = p ++ b)%string -> a = b.
Proof.
  induction p as [|c p IH]; cbn; intros H; [exact H|].
  injection H as H. now apply IH.
Qed.

Lemma append_assoc (a b c : string) : ((a ++ b) ++ c = a ++ (b ++ c))%string.
Proof. induction a as [|x a IH]; cbn; [reflexivity | now rewrite IH]. Qed.

Lemma noSpace_split (a a' r r' : string) :
  noSpace a = true -> noSpace a' = true ->
  (a ++ String " " r = a' ++ String " " r')%string ->
  a = a' /\ r = r'.
Proof.
  revert a'. induction a as [|c a IH]; intros [|c' a'] Ha Ha' H; cbn in *.
  - injection H as ->. now split.
  - injection H as <- _. discriminate Ha'.
  - injection H as -> _. discriminate Ha.
  - injection H as <- H.
    apply andb_prop in Ha. apply andb_prop in Ha'.
    destruct (IH a' (proj2 Ha) (proj2 Ha') H) as [-> ->]. now split.
Qed.

(** [linkWalletToTelegram] reports success exactly when the verifier
    accepted the signature as the address's over the message
    ["Link Telegram profile <telegramId> with nonce <nonce>"], and the
    result is then [{success: true}]. *)
Lemma link_succeeds_iff_verified verify telegramId address signature nonce r :
  LinkService.linkWalletToTelegram verify telegramId address signature nonce = Ok r <->
  verify address (LinkService.message telegramId nonce) signature = Ok true /\
  r = {| LinkService.success := true |}.
Proof.
  unfold LinkService.linkWalletToTelegram.
  destruct (verify address (LinkService.message telegramId nonce) signature) as [[|]|t];
    cbn; split.
  - intros [= <-]. now split.
  - intros [_ ->]. reflexivity.
  - discriminate.
  - intros [H _]. discriminate H.
  - discriminate.
  - intros [H _]. discriminate H.
Qed.

(** X17: the signed message does not delimit its two parameters: moving
    the text [" with nonce "] and what follows it from the identifier to
    the nonce gives the same message, so the two calls have the same
    outcome for every signature. *)
Theorem link_message_collision verify telegramId extra address signature nonce :
  LinkService.linkWalletToTelegram verify
    (telegramId ++ " with nonce " ++ extra)%string address signature nonce
  = LinkService.linkWalletToTelegram verify
      telegramId address signature (extra ++ " with nonce " ++ nonce)%string.
Proof.
  unfold LinkService.linkWalletToTelegram, LinkService.message.
  replace ("Link Telegram profile " ++ (telegramId ++ " with nonce " ++ extra)
             ++ " with nonce " ++ nonce)%string
    with ("Link Telegram profile " ++ telegramId ++ " with nonce "
            ++ extra ++ " with nonce " ++ nonce)%string; [reflexivity|].
  f_equal. rewrite !append_assoc. reflexivity.
Qed.

(** X18: for identifiers without a space the message determines both the
    identifier and the nonce. *)
Theorem link_message_injective telegramId nonce telegramId' nonce' :
  noSpace telegramId = true -> noSpace telegramId' = true ->
  LinkService.message telegramId nonce = LinkService.message telegramId' nonce' ->
  telegramId = telegramId' /\ nonce = nonce'.
Proof.
  intros Hid Hid' H. unfold LinkService.message in H.
  apply append_inj_l in H.
  change (" with nonce " ++ nonce)%string with (String " " ("with nonce " ++ nonce))%string in H.
  change (" with nonce " ++ nonce')%string
    with (String " " ("with nonce " ++ nonce'))%string in H.
  destruct (noSpace_split _ _ _ _ Hid Hid' H) as [-> Hn].
  split; [reflexivity|]. now apply append_inj_l in Hn.
Qed.

End LinkProps.

Section TelegramLinkProps.

Variable W : Type.
Implicit Types (env : TelegramLink.Env W) (s : TelegramLink.Store W).

Ltac run_link :=
  unfold TelegramLink.link, task_finally, task_try, task_bind, task_emit, task_ret,
    TelegramLink.setIsLoading, TelegramLink.setIsLinked, TelegramLink.drawNonce,
    TelegramLink.signMessageAsync, TelegramLink.fetch.

Ltac next_link :=
  match goal with
  | |- context [TelegramLink.env_nonce ?e ?w] =>
      destruct (TelegramLink.env_nonce e w) as [?n ?w1] eqn:?Hnonce
  | |- context [TelegramLink.env_signMessageAsync ?e ?m ?w] =>
      destruct (TelegramLink.env_signMessageAsync e m w) as [[?sig | ?t] ?w2] eqn:?Hsign
  | |- context [TelegramLink.env_fetch ?e ?r ?w] =>
      destruct (TelegramLink.env_fetch e r w) as [[[|] | ?t] ?w3] eqn:?Hfetch
  end.

Ltac all_paths :=
  run_link; repeat (first [ next_link | progress cbn ]).

(** X19: [link] never throws.  Without a connected address it only shows
    the alert; with one it raises the loading flag first and lowers it
    last, whether signing and posting succeed or not. *)
Theorem link_always_ends_loading env s :
  outcome (TelegramLink.link env s) = Ok tt /\
  match TelegramLink.connected (TelegramLink.env_address env) with
  | None =>
      effects (TelegramLink.link env s)
      = [TelegramLink.EvAlert "Please connect wallet first"] /\
      final (TelegramLink.link env s) = s
  | Some _ =>
      (exists middle,
          effects (TelegramLink.link env s)
          = TelegramLink.EvSetIsLoading true :: middle
              ++ [TelegramLink.EvSetIsLoading false]) /\
      TelegramLink.isLoading (TelegramLink.cells (final (TelegramLink.link env s))) = false
  end.
Proof.
  unfold TelegramLink.link.
  destruct (TelegramLink.connected (TelegramLink.env_address env)) as [address|].
  2:{ repeat split. }
  all_paths; (split; [reflexivity|]); (split; [|reflexivity]);
    unfold effects; cbn [snd].
  - eexists [_; _; _]. reflexivity.
  - eexists [_; _]. reflexivity.
  - eexists [_; _; _]. reflexivity.
  - eexists [_; _]. reflexivity.
Qed.

(** X20: [link] marks the profile as linked exactly when the server
    answered the post with an [ok] response; it never unmarks it. *)
Theorem link_marks_linked_on_ok env s :
  TelegramLink.isLinked (TelegramLink.cells (final (TelegramLink.link env s))) = true <->
  TelegramLink.isLinked (TelegramLink.cells s) = true \/
  exists req, In (TelegramLink.EvFetch req (Ok true)) (effects (TelegramLink.link env s)).
Proof.
  unfold TelegramLink.link.
  destruct (TelegramLink.connected (TelegramLink.env_address env)) as [address|].
  2:{ cbn. split; [now left|]. intros [H | [req [H | []]]]; [exact H | discriminate H]. }
  all_paths; unfold final, effects; cbn;
    (split;
     [ intros H; first [ left; exact H | right; eexists; right; right; left; reflexivity ]
     | intros [H | [req H]];
       first [ exact H | reflexivity
             | repeat (destruct H as [H | H]; try discriminate H); destruct H ] ]).
Qed.

(** X21: what [link] posts passes the server's check: the wallet is asked
    to sign the very message [linkWalletToTelegram] rebuilds from the
    posted identifier and nonce, so with a verifier that accepts what the
    wallet signs for the connected address, the posted body is accepted. *)
Theorem posted_link_is_accepted env s (verify : LinkService.Verifier) req res :
  (forall address msg w sig w',
      TelegramLink.connected (TelegramLink.env_address env) = Some address ->
      TelegramLink.env_signMessageAsync env msg w = (Ok sig, w') ->
      verify address msg sig = Ok true) ->
  In (TelegramLink.EvFetch req res) (effects (TelegramLink.link env s)) ->
  LinkService.linkWalletToTelegram verify
    (TelegramLink.telegramId (TelegramLink.body req))
    (TelegramLink.address (TelegramLink.body req))
    (TelegramLink.signature (TelegramLink.body req))
    (TelegramLink.nonce (TelegramLink.body req))
  = Ok {| LinkService.success := true |}.
Proof.
  intros Hverify. unfold TelegramLink.link.
  destruct (TelegramLink.connected (TelegramLink.env_address env)) as [address|] eqn:Ha.
  2:{ cbn. intros [H | []]. discriminate H. }
  all_paths; unfold effects; cbn; intros H;
    repeat (destruct H as [H | H]; [try discriminate H |]); try contradiction;
    injection H as <- _; cbn;
    unfold LinkService.linkWalletToTelegram;
    match goal with
    | Hs : TelegramLink.env_signMessageAsync env ?m ?w = (Ok ?sig, _) |- _ =>
        change (LinkService.message "USER_ID_FROM_CONTEXT" n) with m;
        rewrite (Hverify address m w sig _ eq_refl Hs)
    end; reflexivity.
Qed.

End TelegramLinkProps.

(** ** The Telegram AI composer *)

Section AiAgentProps.

Variable W : Type.
Implicit Types (openai : AiAgent.OpenAI W) (ctx : AiAgent.Context W) (w : W).

Ltac run_bot :=
  unfold AiAgent.onText, AiAgent.generateResponse, AiAgent.create, AiAgent.reply,
    AiAgent.replyWithChatAction, task_try, task_bind, task_emit, task_ret, task_throw.

Ltac next_bot :=
  match goal with
  | |- context [AiAgent.ctx_replyWithChatAction ?c ?a ?w] =>
      destruct (AiAgent.ctx_replyWithChatAction c a w) as [[[] | ?t] ?w1] eqn:?Haction
  | |- context [?o ?req ?w] =>
      match type of o with
      | AiAgent.OpenAI _ =>
          destruct (o req w) as [[[[|?c ?cs]] | ?t] ?w2] eqn:?Hcreate
      end
  | |- context [AiAgent.ctx_reply ?c ?a ?w] =>
      destruct (AiAgent.ctx_reply c a w) as [[[] | ?t] ?w3] eqn:?Hreply
  end.

Lemma orElse_nonempty (response : option string) (fallback : string) :
  fallback <> "" -> AiAgent.orElse response fallback <> "".
Proof.
  intros Hf. unfold AiAgent.orElse. destruct response as [r|]; [|exact Hf].
  destruct (String.eqb_spec r ""); [exact Hf | assumption].
Qed.

(** X22: the handler ignores commands altogether; for any other text it
    asks the model at most once and sends at most two replies, none of
    them empty; and when the typing action fails it throws that fault
    without asking the model or replying. *)
Theorem onText_bounds openai ctx w :
  (String.prefix "/" (AiAgent.ctx_text ctx) = true ->
   AiAgent.onText openai ctx w = (Ok tt, w, [])) /\
  (forall text, In text (replies (effects (AiAgent.onText openai ctx w))) -> text <> "") /\
  List.length (replies (effects (AiAgent.onText openai ctx w))) <= 2 /\
  List.length (modelRequests (effects (AiAgent.onText openai ctx w))) <= 1 /\
  (forall t w1,
      String.prefix "/" (AiAgent.ctx_text ctx) = false ->
      AiAgent.ctx_replyWithChatAction ctx "typing" w = (Throw t, w1) ->
      AiAgent.onText openai ctx w
      = (Throw t, w1, [AiAgent.EvChatAction "typing" (Throw t)])).
Proof.
  pose proof (orElse_nonempty) as Hne.
  unfold AiAgent.onText.
  destruct (String.prefix "/" (AiAgent.ctx_text ctx)) eqn:Hp.
  { repeat split; cbn; try lia; try discriminate. }
  split; [discriminate|].
  run_bot. unfold effects.
  repeat (first [ next_bot | progress cbn [fst snd app replies modelRequests List.length
                                             AiAgent.choices] ]);
    (split; [|split; [lia|split; [lia|]]]);
    try (intros t' w' _ [=]; subst; reflexivity);
    try (intros t' w' _ [=]);
    intros text Hin; cbn in Hin;
    repeat (destruct Hin as [<- | Hin]; [first [ apply Hne; discriminate | discriminate ] |]);
    destruct Hin.
Qed.


(** X24: when the model cannot be asked, answers without a choice, or the
    answer cannot be sent, the handler sends the apology, and how that
    last reply ends is how the handler ends. *)
Theorem onText_apologises openai ctx w w1 :
  String.prefix "/" (AiAgent.ctx_text ctx) = false ->
  AiAgent.ctx_replyWithChatAction ctx "typing" w = (Ok tt, w1) ->
  (exists t,
      outcome (task_bind (AiAgent.generateResponse openai (AiAgent.ctx_text ctx) [])
                 (fun response =>
                    AiAgent.reply ctx
                      (AiAgent.orElse response "I'm not sure how to respond to that."))
                 w1) = Throw t) ->
  exists before res,
    effects (AiAgent.onText openai ctx w)
    = before ++ [AiAgent.EvConsoleError "AI generation error:";
                 AiAgent.EvReply
                   "Sorry, I encountered an error while processing your request." res] /\
    outcome (AiAgent.onText openai ctx w) = res.
Proof.
  intros Hp Haction [t Hthrow].
  unfold AiAgent.onText. rewrite Hp.
  set (body := task_bind (AiAgent.generateResponse openai (AiAgent.ctx_text ctx) []) _) in *.
  destruct (body w1) as [[[[]|t'] wa] evs] eqn:E;
    unfold outcome in Hthrow; cbn in Hthrow; [discriminate Hthrow|].
  destruct (AiAgent.ctx_reply ctx
              "Sorry, I encountered an error while processing your request." wa)
    as [res wb] eqn:Er.
  unfold task_bind, task_try, task_emit, AiAgent.replyWithChatAction, AiAgent.reply.
  rewrite Haction. cbv beta iota. rewrite E. cbv beta iota. rewrite Er.
  unfold outcome, effects. cbn [fst snd].
  exists (AiAgent.EvChatAction "typing" (Ok tt) :: evs), res.
  split; reflexivity.
Qed.

End AiAgentProps.

(** ** openrouter-client.ts *)

Section OpenRouterProps.

Variables (W Num : Type) (showNum : Num -> string).
Implicit Types (f : OpenRouter.Fetch W Num) (this : OpenRouter.OpenRouterClient)
  (w : W) (env : OpenRouter.ProcessEnv).

Ltac run_chat :=
  unfold OpenRouter.complete, OpenRouter.chat, OpenRouter.fetch, OpenRouter.lift_result,
    task_bind, task_ret, task_throw.

(** X25: [createOpenRouterClient] takes the API key from the overrides if
    they have one and from the environment otherwise, and succeeds exactly
    when that key is not empty: an empty key in the overrides is not
    replaced by the key of the environment.  The client it returns has that
    key; its model and base URL come from the overrides, else from the
    environment, else are ['openai/gpt-4o'] and the public endpoint. *)
Theorem createOpenRouterClient_resolution (overrides : option OpenRouter.Overrides) env :
  let given k := match overrides with Some o => k o | None => None end in
  let key := orFrom (given OpenRouter.o_apiKey) (OpenRouter.OPENROUTER_API_KEY env) in
  match nonEmpty key with
  | Some k =>
      exists client,
        OpenRouter.createOpenRouterClient overrides env = Ok client /\
        OpenRouter.config_apiKey client = k /\
        Some (OpenRouter.getModel client)
        = orFrom (orFrom (given OpenRouter.o_model) (OpenRouter.OPENROUTER_MODEL env))
            (Some "openai/gpt-4o") /\
        Some (OpenRouter.config_baseUrl client)
        = orFrom (orFrom (given OpenRouter.o_baseUrl) (OpenRouter.OPENROUTER_BASE_URL env))
            (Some "https://openrouter.ai/api/v1") /\
        OpenRouter.this_siteUrl client = given OpenRouter.o_siteUrl /\
        OpenRouter.this_siteName client = given OpenRouter.o_siteName
  | None =>
      OpenRouter.createOpenRouterClient overrides env
      = Throw (ThrownError
                 (mkError "OPENROUTER_API_KEY environment variable is required"))
  end.
Proof.
  unfold OpenRouter.createOpenRouterClient, OpenRouter.override, nonEmpty, orFrom.
  destruct overrides as [[oKey oModel oBase oSite oName]|]; cbn;
    [destruct oKey as [k|]; cbn|];
    try (destruct (OpenRouter.OPENROUTER_API_KEY env) as [k|]; cbn; [|reflexivity]);
    (destruct (k =? ""); [reflexivity|]);
    eexists; (split; [reflexivity|]); cbn;
    repeat split;
    try (destruct oModel; cbn); try (destruct oBase; cbn);
    try (destruct (OpenRouter.OPENROUTER_MODEL env); cbn);
    try (destruct (OpenRouter.OPENROUTER_BASE_URL env); cbn);
    try (destruct oSite); try (destruct oName); reflexivity.
Qed.

(** A task that neither acts on the world nor emits an event. *)
Definition silent {A} (m : Task (OpenRouter.Event Num) W A) : Prop :=
  forall w, exists r, m w = (r, w, []).

Lemma silent_lift {A} (r : Result A) : silent (OpenRouter.lift_result (W := W) (Num := Num) r).
Proof. intros w. now exists r. Qed.

Lemma silent_ret {A} (a : A) : silent (task_ret a).
Proof. intros w. now exists (Ok a). Qed.

Lemma silent_throw {A} (t : Thrown) : silent (task_throw (A := A) t).
Proof. intros w. now exists (Throw t). Qed.

Lemma silent_bind {A B} (m : Task (OpenRouter.Event Num) W A)
    (k : A -> Task (OpenRouter.Event Num) W B) :
  silent m -> (forall a, silent (k a)) -> silent (task_bind m k).
Proof.
  intros Hm Hk w. destruct (Hm w) as [[a|t] E]; unfold task_bind; rewrite E.
  - destruct (Hk a w) as [r E']. rewrite E'. now exists r.
  - now exists (Throw t).
Qed.

Lemma bound_to_fetch {A} f req (k : OpenRouter.Response Num -> Task (OpenRouter.Event Num) W A) w :
  (forall resp, silent (k resp)) ->
  exists res, effects (task_bind (OpenRouter.fetch f req) k w)
              = [OpenRouter.EvFetch req res].
Proof.
  intros Hk. unfold task_bind, OpenRouter.fetch.
  destruct (f req w) as [[resp|t] w1]; [|now eexists].
  destruct (Hk resp w1) as [r E]. rewrite E. now eexists.
Qed.

Ltac silence :=
  repeat first
    [ apply silent_ret | apply silent_throw | apply silent_lift
    | apply silent_bind; [|intros ?] ].

(** X26: whatever the response, [chat] makes exactly one request: a POST
    to [<baseUrl>/chat/completions] with the JSON content type and the API
    key as bearer token, carrying the client's current model and the
    messages as given.  The [HTTP-Referer] and [X-Title] headers are sent
    exactly when the site URL and the site name are set and not empty; and
    [setModel] changes the model of later requests and nothing else. *)
Theorem chat_request f this messages (options : OpenRouter.ChatOptions Num) w newModel :
  (exists req res,
      effects (OpenRouter.chat showNum f this messages options w)
      = [OpenRouter.EvFetch req res] /\
      OpenRouter.url req = (OpenRouter.config_baseUrl this ++ "/chat/completions")%string /\
      OpenRouter.method req = "POST" /\
      headerValue "Content-Type" (OpenRouter.headers req) = Some "application/json" /\
      headerValue "Authorization" (OpenRouter.headers req)
      = Some ("Bearer " ++ OpenRouter.config_apiKey this)%string /\
      headerValue "HTTP-Referer" (OpenRouter.headers req)
      = nonEmpty (OpenRouter.this_siteUrl this) /\
      headerValue "X-Title" (OpenRouter.headers req)
      = nonEmpty (OpenRouter.this_siteName this) /\
      OpenRouter.b_model (OpenRouter.body req) = OpenRouter.getModel this /\
      OpenRouter.b_messages (OpenRouter.body req) = messages /\
      exists req' res',
        effects (OpenRouter.chat showNum f (OpenRouter.setModel this newModel)
                   messages options w)
        = [OpenRouter.EvFetch req' res'] /\
        OpenRouter.url req' = OpenRouter.url req /\
        OpenRouter.headers req' = OpenRouter.headers req /\
        OpenRouter.b_model (OpenRouter.body req') = newModel /\
        OpenRouter.b_messages (OpenRouter.body req') = messages) /\
  OpenRouter.getModel (OpenRouter.setModel this newModel) = newModel.
Proof.
  split; [|reflexivity].
  unfold OpenRouter.chat.
  match goal with
  | |- context [task_bind (OpenRouter.fetch f ?req) ?k w] =>
      destruct (bound_to_fetch f req k w) as [res Hres];
        [intros resp; destruct (negb (OpenRouter.ok resp)); silence|]
  end.
  match goal with
  | |- context [task_bind (OpenRouter.fetch f ?req)
                  ?k w] =>
      lazymatch req with
      | context [OpenRouter.setModel] =>
          destruct (bound_to_fetch f req k w) as [res' Hres'];
            [intros resp; destruct (negb (OpenRouter.ok resp)); silence|]
      end
  end.
  eexists _, res. split; [exact Hres|].
  cbn [OpenRouter.url OpenRouter.method OpenRouter.headers OpenRouter.body
       OpenRouter.b_model OpenRouter.b_messages].
  split; [reflexivity|]. split; [reflexivity|]. split; [reflexivity|].
  split; [reflexivity|].
  split.
  { unfold OpenRouter.optionalHeader, nonEmpty.
    destruct (OpenRouter.this_siteUrl this) as [u|]; [destruct (u =? "")|];
      (destruct (OpenRouter.this_siteName this) as [n|]; [destruct (n =? "")|]);
      reflexivity. }
  split.
  { unfold OpenRouter.optionalHeader, nonEmpty.
    destruct (OpenRouter.this_siteUrl this) as [u|]; [destruct (u =? "")|];
      (destruct (OpenRouter.this_siteName this) as [n|]; [destruct (n =? "")|]);
      reflexivity. }
  split; [reflexivity|]. split; [reflexivity|].
  eexists _, res'. split; [exact Hres'|]. repeat split.
Qed.





(** X30: [complete] is [chat] on the user's prompt, preceded by the system
    prompt when one is given and is not empty, with the options given or
    none; it returns the content of the response and throws what [chat]
    throws. *)
Theorem complete_is_chat f this prompt systemPrompt
    (options : option (OpenRouter.ChatOptions Num)) w :
  let messages :=
    match nonEmpty systemPrompt with
    | Some sp => [{| OpenRouter.role := OpenRouter.system; OpenRouter.content := sp |};
                  {| OpenRouter.role := OpenRouter.user; OpenRouter.content := prompt |}]
    | None => [{| OpenRouter.role := OpenRouter.user; OpenRouter.content := prompt |}]
    end in
  let run :=
    OpenRouter.chat showNum f this messages
      (match options with Some o => o | None => OpenRouter.noOptions end) w in
  outcome (OpenRouter.complete showNum f this prompt systemPrompt options w)
  = match outcome run with
    | Ok response => Ok (OpenRouter.r_content response)
    | Throw t => Throw t
    end /\
  final (OpenRouter.complete showNum f this prompt systemPrompt options w) = final run /\
  effects (OpenRouter.complete showNum f this prompt systemPrompt options w) = effects run.
Proof.
  cbv zeta. unfold OpenRouter.complete, nonEmpty.
  destruct systemPrompt as [sp|]; [destruct (sp =? "")|]; cbn [app];
    unfold task_bind;
    match goal with
    | |- context [OpenRouter.chat showNum f this ?m ?o w] =>
        destruct (OpenRouter.chat showNum f this m o w) as [[[r|t] w1] evs]
    end; unfold outcome, final, effects, task_ret; cbn; rewrite ?app_nil_r;
    repeat split.
Qed.

End OpenRouterProps.

(** ** The further properties on concrete collaborators *)

Lemma checkRegistration_unregistered_witness :
  checkRegistration Collaborators.emptyRegistry arbitrum_sepolia Demo.owner None 0
  = (Ok notRegistered, 1,
     [EvReadContract (isAgentRegistered_call Demo.registry Demo.owner) (Ok (JBool false))]).
Proof.
  refine (checkRegistration_unregistered nat Collaborators.emptyRegistry arbitrum_sepolia
            Demo.owner None 0 (JBool false) 1 _ eq_refl eq_refl).
  discriminate.
Defined.

Lemma malformed_records_witness :
  result_of (checkRegistration
               (Demo.publicClientWith (JObject [("owner", JString Demo.owner)]))
               arbitrum_sepolia Demo.owner None 0)
  = Ok notRegistered /\
  isRegistered_of
    (result_of (checkRegistration (Demo.publicClientWith (JArray []))
                  arbitrum_sepolia Demo.owner None 0)) = Some true.
Proof.
  assert (Hreg : resolveRegistry None arbitrum_sepolia <> NULL_ADDRESS) by discriminate.
  split.
  - exact (proj1 (malformed_records nat
                    (Demo.publicClientWith (JObject [("owner", JString Demo.owner)]))
                    arbitrum_sepolia Demo.owner None 0 (JString Demo.agentId) Hreg)
             (JObject [("owner", JString Demo.owner)]) eq_refl eq_refl
             (demo_fetches _ 0)).
  - rewrite (proj2 (malformed_records nat (Demo.publicClientWith (JArray []))
                      arbitrum_sepolia Demo.owner None 0 (JString Demo.agentId) Hreg)
               [] (demo_fetches _ 0)).
    reflexivity.
Defined.

Lemma write_path_submission_witness :
  exists req res rest,
    events_of (libCall Collaborators.demoOptions
                 (Demo.publicClientWith Demo.structRecord) Demo.wallet None
                 (AddStake 5) 0)
    = EvWriteContract req res :: rest /\
    wr_address req = Demo.registry /\
    wr_account req = Demo.owner /\
    wr_value req = Some 5%Z /\
    chainCalls (events_of (libCall Collaborators.demoOptions
                             (Demo.publicClientWith Demo.structRecord) Demo.wallet None
                             (AddStake 5) 0)) <= 2.
Proof.
  exact (write_path_submission nat Collaborators.demoOptions
           (Demo.publicClientWith Demo.structRecord) Demo.wallet None (AddStake 5) 0
           Demo.owner eq_refl (or_introl eq_refl)).
Defined.




Lemma registerAgent_reads_first_matching_log_witness :
  result_of (registerAgent Collaborators.namingClient Demo.wallet arbitrum_sepolia
               Demo.metadata None None 0)
  = Ok {| tr_hash := Demo.txHash; tr_agentId := Some Demo.agentId |}.
Proof.
  refine (registerAgent_reads_first_matching_log nat Collaborators.namingClient
            Demo.wallet arbitrum_sepolia Demo.metadata None None 0 Demo.owner Demo.txHash
            1 Collaborators.namedReceipt 2 [Collaborators.otherLog] Collaborators.namedLog
            [Collaborators.otherLog] eq_refl _ eq_refl eq_refl eq_refl _ eq_refl).
  - discriminate.
  - intros l [<- | []]. reflexivity.
Defined.

Lemma fetchStatus_without_inputs_witness :
  fetchStatus (Demo.optionsWith None (Some Demo.wallet) arbitrum_sepolia) Demo.registered
  = (Ok tt,
     {| chain := 3;
        hook := {| status := None; isLoading := false; error := None;
                   txState := TxIdle |} |},
     [EvSetStatus None]).
Proof.
  exact (fetchStatus_without_inputs nat
           (Demo.optionsWith None (Some Demo.wallet) arbitrum_sepolia) Demo.registered
           (or_introl eq_refl)).
Defined.

Lemma fetchStatus_stores_status_witness :
  exists st,
    result_of (checkRegistration (Demo.failingFrom 0) arbitrum_sepolia Demo.owner None 3)
    = Ok st /\
    result_of (fetchStatus
                 (Demo.optionsWith (Some (Demo.failingFrom 0)) (Some Demo.wallet)
                    arbitrum_sepolia) Demo.registered) = Ok tt /\
    hook (state_of (fetchStatus
                      (Demo.optionsWith (Some (Demo.failingFrom 0)) (Some Demo.wallet)
                         arbitrum_sepolia) Demo.registered))
    = {| status := Some st; isLoading := false; error := None; txState := TxIdle |} /\
    chain (state_of (fetchStatus
                       (Demo.optionsWith (Some (Demo.failingFrom 0)) (Some Demo.wallet)
                          arbitrum_sepolia) Demo.registered))
    = state_of (checkRegistration (Demo.failingFrom 0) arbitrum_sepolia Demo.owner None 3).
Proof.
  destruct (fetchStatus_stores_status nat
              (Demo.optionsWith (Some (Demo.failingFrom 0)) (Some Demo.wallet)
                 arbitrum_sepolia) Demo.registered (Demo.failingFrom 0) Demo.owner
              eq_refl eq_refl) as (st & H1 & H2 & H3 & H4).
  exists st. repeat split; assumption.
Defined.

Lemma failed_action_records_error_witness :
  exists e,
    ThrownError (mkError "User rejected the request") = ThrownError e /\
    hook (state_of Runs.rejectedRegistration)
    = {| status := None; isLoading := false; error := Some e; txState := TxError e |}.
Proof.
  exact (failed_action_records_error nat
           (Demo.optionsWith (Some (Demo.publicClientWith Demo.structRecord))
              (Some Demo.rejectingWallet) arbitrum_sepolia)
           (Register Demo.metadata None) Demo.fresh
           (ThrownError (mkError "User rejected the request")) eq_refl eq_refl).
Defined.

Lemma failed_action_error_message_witness :
  result_of (invoke (Demo.optionsWith (Some (Demo.publicClientWith Demo.structRecord))
                       (Some Collaborators.stringThrowingWallet) arbitrum_sepolia)
               (AddStake 5) Demo.registered)
  = Throw (ThrownError (mkError "Staking failed")).
Proof.
  exact (proj2 (failed_action_error_message nat
                  (Demo.optionsWith (Some (Demo.publicClientWith Demo.structRecord))
                     (Some Collaborators.stringThrowingWallet) arbitrum_sepolia)
                  (AddStake 5) Demo.registered
                  (Demo.publicClientWith Demo.structRecord)
                  Collaborators.stringThrowingWallet eq_refl eq_refl eq_refl)
           (JString "rejected") eq_refl).
Defined.

Lemma successful_action_refreshes_cache_witness :
  exists st,
    result_of (checkRegistration (Demo.publicClientWith Demo.structRecord)
                 arbitrum_sepolia Demo.owner None 2) = Ok st /\
    result_of (invoke Collaborators.demoOptions (Register Demo.metadata None) Demo.fresh)
    = Ok {| tr_hash := Demo.txHash; tr_agentId := None |} /\
    hook (state_of (invoke Collaborators.demoOptions (Register Demo.metadata None)
                      Demo.fresh))
    = {| status := Some st; isLoading := false; error := None;
         txState := TxSuccess Demo.txHash |}.
Proof.
  exact (successful_action_refreshes_cache nat Collaborators.demoOptions
           (Register Demo.metadata None) Demo.fresh
           (Demo.publicClientWith Demo.structRecord) Demo.wallet Demo.owner
           {| tr_hash := Demo.txHash; tr_agentId := None |} 2 _
           eq_refl eq_refl eq_refl eq_refl eq_refl).
Defined.

Lemma register_on_null_registry_witness :
  result_of (invoke (Demo.optionsWith (Some (Demo.publicClientWith Demo.structRecord))
                       (Some Demo.wallet) arbitrum)
               (Register Demo.metadata None) Demo.fresh)
  = Throw (ThrownError (mkError "Registry contract not deployed on this network")).
Proof.
  exact (f_equal result_of
           (register_on_null_registry nat
              (Demo.optionsWith (Some (Demo.publicClientWith Demo.structRecord))
                 (Some Demo.wallet) arbitrum)
              Demo.metadata None Demo.fresh (Demo.publicClientWith Demo.structRecord)
              Demo.wallet Demo.owner eq_refl eq_refl eq_refl eq_refl)).
Defined.

Lemma registration_enables_actions_witness :
  guardPasses Collaborators.demoOptions (UpdateCapabilities ["web-search"])
    (hook (state_of (invoke Collaborators.demoOptions (Register Demo.metadata None)
                       Demo.fresh)))
  = true.
Proof.
  refine (proj2 (registration_enables_actions nat Collaborators.demoOptions Demo.metadata
                   None Demo.fresh (Demo.publicClientWith Demo.structRecord) Demo.wallet
                   Demo.owner {| tr_hash := Demo.txHash; tr_agentId := None |} 2 _
                   (JString Demo.agentId) Demo.structRecord Demo.registeredInfo
                   eq_refl eq_refl eq_refl _ eq_refl (demo_fetches _ 2) eq_refl eq_refl)
            (UpdateCapabilities ["web-search"])).
  discriminate.
Defined.

Lemma link_message_injective_witness :
  LinkService.message "424242" "k3x9" = "Link Telegram profile 424242 with nonce k3x9" /\
  ("424242" = "424242" /\ "k3x9" = "k3x9").
Proof.
  split; [reflexivity|].
  exact (link_message_injective "424242" "k3x9" "424242" "k3x9" eq_refl eq_refl eq_refl).
Defined.

Lemma posted_link_is_accepted_witness :
  LinkService.linkWalletToTelegram Collaborators.verifier
    "USER_ID_FROM_CONTEXT" Demo.owner
    (Collaborators.sign (LinkService.message "USER_ID_FROM_CONTEXT" "k3x9")) "k3x9"
  = Ok {| LinkService.success := true |}.
Proof.
  refine (posted_link_is_accepted nat
            (Collaborators.linkEnv (Some Demo.owner) (Ok false)) Collaborators.linkStore
            Collaborators.verifier
            {| TelegramLink.url := "/api/telegram/link"; TelegramLink.method := "POST";
               TelegramLink.body :=
                 {| TelegramLink.telegramId := "USER_ID_FROM_CONTEXT";
                    TelegramLink.address := Demo.owner;
                    TelegramLink.signature :=
                      Collaborators.sign
                        (LinkService.message "USER_ID_FROM_CONTEXT" "k3x9");
                    TelegramLink.nonce := "k3x9" |} |}
            (Ok false) _ _).
  - intros address msg w sig w' _ [= <- _]. unfold Collaborators.verifier.
    now rewrite String.eqb_refl.
  - right. right. left. reflexivity.
Defined.


Lemma onText_apologises_witness :
  exists before res,
    effects (AiAgent.onText Collaborators.unreachable (Collaborators.chatWith "hello") 0)
    = before ++ [AiAgent.EvConsoleError "AI generation error:";
                 AiAgent.EvReply
                   "Sorry, I encountered an error while processing your request." res] /\
    outcome (AiAgent.onText Collaborators.unreachable (Collaborators.chatWith "hello") 0)
    = res.
Proof.
  exact (onText_apologises nat Collaborators.unreachable (Collaborators.chatWith "hello")
           0 1 eq_refl eq_refl (ex_intro _ Demo.transportFault eq_refl)).
Defined.



